(** * The embedded-database upgrade orchestrator of [cmd/server/shared/postgres.go]

    A shallow embedding of [maybePostgresProcFile], [maybeUpgradePostgres],
    [hostMountPoint] and [containerID], over an explicit model of what the
    Go code talks to: a file system, the process environment, the Docker
    daemon, external commands and the log.  Every operation the code performs
    on the outside world is recorded in a trace, so that ordering properties
    can be stated about runs. *)

From Stdlib Require Import ZArith Ascii.
From stdpp Require Import gmap strings list fin_maps pretty.

(* ===================================================================== *)
(** ** Go's [strings] and [bytes] helpers used by the code *)
(* ===================================================================== *)

Module GoStrings.

(** Go strings are byte sequences; [ascii] is the byte. *)
Definition byte (n : nat) : ascii := ascii_of_nat n.

(** The six ASCII code points for which [unicode.IsSpace] holds. *)
Definition isAsciiSpace (c : ascii) : bool :=
  match nat_of_ascii c with
  | 9 | 10 | 11 | 12 | 13 | 32 => true
  | _ => false
  end.

(** UTF-8 encodings of U+0085 and U+00A0. *)
Definition isSpace2 (c1 c2 : ascii) : bool :=
  match nat_of_ascii c1, nat_of_ascii c2 with
  | 194, 133 | 194, 160 => true
  | _, _ => false
  end.

(** UTF-8 encodings of U+1680, U+2000..U+200A, U+2028, U+2029, U+202F,
    U+205F and U+3000. *)
Definition isSpace3 (c1 c2 c3 : ascii) : bool :=
  match nat_of_ascii c1, nat_of_ascii c2, nat_of_ascii c3 with
  | 225, 154, 128 => true
  | 226, 128, n => (128 <=? n)%nat && (n <=? 138)%nat
                   || (n =? 168)%nat || (n =? 169)%nat || (n =? 175)%nat
  | 226, 129, 159 => true
  | 227, 128, 128 => true
  | _, _, _ => false
  end.

(** [strings.TrimLeftFunc(s, unicode.IsSpace)]: drop leading runes that are
    white space. *)
Fixpoint trimLeftSpace (s : string) : string :=
  match s with
  | EmptyString => EmptyString
  | String c1 s1 =>
      if isAsciiSpace c1 then trimLeftSpace s1
      else match s1 with
           | String c2 s2 =>
               if isSpace2 c1 c2 then trimLeftSpace s2
               else match s2 with
                    | String c3 s3 =>
                        if isSpace3 c1 c2 c3 then trimLeftSpace s3 else s
                    | EmptyString => s
                    end
           | EmptyString => s
           end
  end.

(** The same scan over the reversed string: the bytes of a rune come in
    reverse order. *)
Fixpoint trimLeftSpaceRev (s : string) : string :=
  match s with
  | EmptyString => EmptyString
  | String c1 s1 =>
      if isAsciiSpace c1 then trimLeftSpaceRev s1
      else match s1 with
           | String c2 s2 =>
               if isSpace2 c2 c1 then trimLeftSpaceRev s2
               else match s2 with
                    | String c3 s3 =>
                        if isSpace3 c3 c2 c1 then trimLeftSpaceRev s3 else s
                    | EmptyString => s
                    end
           | EmptyString => s
           end
  end.

(** [strings.TrimRightFunc(s, unicode.IsSpace)]. *)
Definition trimRightSpace (s : string) : string :=
  String.rev (trimLeftSpaceRev (String.rev s)).

(** [strings.TrimSpace] and [bytes.TrimSpace]. *)
Definition TrimSpace (s : string) : string :=
  trimRightSpace (trimLeftSpace s).

(** Split at the first occurrence of the byte [sep]. *)
Fixpoint cut (sep : ascii) (s : string) : option (string * string) :=
  match s with
  | EmptyString => None
  | String c s' =>
      if Ascii.eqb c sep then Some (EmptyString, s')
      else match cut sep s' with
           | Some (a, b) => Some (String c a, b)
           | None => None
           end
  end.

(** [strings.SplitN(s, sep, n)] for a one-byte separator and [n >= 0]:
    at most [n] pieces, the last one holding the unsplit rest. *)
Fixpoint SplitN (s : string) (sep : ascii) (n : nat) : list string :=
  match n with
  | O => []
  | S O => [s]
  | S n' =>
      match cut sep s with
      | Some (a, b) => a :: SplitN b sep n'
      | None => [s]
      end
  end.

(** [strings.Split(s, sep)] for a one-byte separator. *)
Fixpoint Split (s : string) (sep : ascii) : list string :=
  match s with
  | EmptyString => [EmptyString]
  | String c s' =>
      if Ascii.eqb c sep then EmptyString :: Split s' sep
      else match Split s' sep with
           | a :: l => String c a :: l
           | [] => [String c EmptyString]
           end
  end.

(** [strings.Join(elems, sep)]. *)
Fixpoint Join (elems : list string) (sep : string) : string :=
  match elems with
  | [] => ""
  | [a] => a
  | a :: l => a +:+ sep +:+ Join l sep
  end.

(** [bufio.Reader.ReadString(delim)] on the contents still to be read:
    the text up to and including the first [delim], or [None] (an
    [io.EOF] error) when there is no [delim]. *)
Definition ReadString (contents : string) (delim : ascii) : option string :=
  match cut delim contents with
  | Some (a, _) => Some (a +:+ String delim EmptyString)
  | None => None
  end.

End GoStrings.

(* ===================================================================== *)
(** ** Go's [path/filepath] on a Unix host *)
(* ===================================================================== *)

Module Filepath.
Import GoStrings.

Definition slash : ascii := "/"%char.

(** One step of the component scan of [filepath.Clean]; [out] is the
    stack of kept components, innermost first. *)
Definition cleanStep (rooted : bool) (out : list string) (comp : string)
  : list string :=
  if decide (comp = "") then out
  else if decide (comp = ".") then out
  else if decide (comp = "..") then
    match out with
    | top :: rest =>
        if decide (top = "..") then comp :: out else rest
    | [] => if rooted then [] else [comp]
    end
  else comp :: out.

Definition isRooted (path : string) : bool :=
  match path with
  | String c _ => Ascii.eqb c slash
  | EmptyString => false
  end.

(** [filepath.Clean]. *)
Definition Clean (path : string) : string :=
  let rooted := isRooted path in
  let out := rev (foldl (cleanStep rooted) [] (Split path slash)) in
  if rooted then "/" +:+ GoStrings.Join out "/"
  else match out with
       | [] => "."
       | _ => GoStrings.Join out "/"
       end.

(** [filepath.Join]: the first non-empty element starts the path. *)
Fixpoint Join (elem : list string) : string :=
  match elem with
  | [] => ""
  | e :: rest =>
      if decide (e = "") then Join rest
      else Clean (GoStrings.Join elem "/")
  end.

(** Drop the bytes after the last separator of a reversed path. *)
Fixpoint dropToSlash (r : string) : string :=
  match r with
  | EmptyString => EmptyString
  | String c r' => if Ascii.eqb c slash then r else dropToSlash r'
  end.

(** [filepath.Dir]: everything up to the last separator, cleaned. *)
Definition Dir (path : string) : string :=
  Clean (String.rev (dropToSlash (String.rev path))).

Fixpoint dropSlashes (r : string) : string :=
  match r with
  | EmptyString => EmptyString
  | String c r' => if Ascii.eqb c slash then dropSlashes r' else r
  end.

Fixpoint takeToSlash (r : string) : string :=
  match r with
  | EmptyString => EmptyString
  | String c r' =>
      if Ascii.eqb c slash then EmptyString else String c (takeToSlash r')
  end.

(** [filepath.Base]: the last element of the path. *)
Definition Base (path : string) : string :=
  if decide (path = "") then "."
  else
    let r := dropSlashes (String.rev path) in
    let b := String.rev (takeToSlash r) in
    if decide (b = "") then "/" else b.

End Filepath.

(* ===================================================================== *)
(** ** Errors *)
(* ===================================================================== *)

(** Go [error] values, as far as the code tells them apart. *)
Inductive error : Type :=
| ENOENT (p : string)            (** the only errors with [os.IsNotExist] *)
| EISDIR (p : string)
| ENOTDIR (p : string)
| EOF                            (** [io.EOF] *)
| External (msg : string)        (** reported by Docker or by a command *)
| New (msg : string)             (** [errors.New], [fmt.Errorf] *)
| Wrap (e : error) (msg : string). (** [errors.Wrap], [errors.Wrapf] *)

Definition IsNotExist (e : error) : bool :=
  match e with
  | ENOENT _ => true
  | _ => false
  end.

#[global] Instance error_eq_dec : EqDecision error.
Proof. solve_decision. Defined.

(* ===================================================================== *)
(** ** The file system *)
(* ===================================================================== *)

Inductive node : Type :=
| File (data : string)
| Directory.

#[global] Instance node_eq_dec : EqDecision node.
Proof. solve_decision. Defined.

Module FS.
Import GoStrings.

(** A file system maps cleaned paths to nodes.  Permissions, links and
    device errors are not part of the model. *)
Abbreviation t := (gmap string node).

(** [ioutil.ReadFile]. *)
Definition ReadFile (fs : t) (p : string) : error + string :=
  match fs !! p with
  | Some (File data) => inr data
  | Some Directory => inl (EISDIR p)
  | None => inl (ENOENT p)
  end.

(** [os.Stat], keeping of the file info only whether it is a directory. *)
Definition Stat (fs : t) (p : string) : error + bool :=
  match fs !! p with
  | Some (File _) => inr false
  | Some Directory => inr true
  | None => inl (ENOENT p)
  end.

Definition isDir (fs : t) (p : string) : bool :=
  if decide (p = "/") then true
  else if decide (p = ".") then true
  else match fs !! p with
       | Some Directory => true
       | _ => false
       end.

(** [ioutil.WriteFile]: create or truncate [p] in an existing directory. *)
Definition WriteFile (fs : t) (p data : string) : error + t :=
  match fs !! p with
  | Some Directory => inl (EISDIR p)
  | _ =>
      if isDir fs (Filepath.Dir p) then inr (<[p := File data]> fs)
      else match fs !! Filepath.Dir p with
           | Some _ => inl (ENOTDIR p)
           | None => inl (ENOENT p)
           end
  end.

(** The path itself and the paths that lead to it, outermost first. *)
Definition prefixes (p : string) : list string :=
  let comps := filter (λ c, c ≠ "") (Split p Filepath.slash) in
  let root := if Filepath.isRooted p then "/" else "" in
  (λ k, root +:+ GoStrings.Join (take k comps) "/") <$> seq 1 (length comps).

Fixpoint mkdirs (fs : t) (ps : list string) : error + t :=
  match ps with
  | [] => inr fs
  | p :: rest =>
      match fs !! p with
      | Some Directory => mkdirs fs rest
      | Some (File _) => inl (ENOTDIR p)
      | None => mkdirs (<[p := Directory]> fs) rest
      end
  end.

(** [os.MkdirAll]: create the directory and the missing ones above it;
    nothing to do when it is there already. *)
Definition MkdirAll (fs : t) (p : string) : error + t :=
  mkdirs fs (prefixes p).

(** [k] is [p] or lies below it. *)
Definition under (p k : string) : Prop :=
  k = p ∨ String.prefix (p +:+ "/") k = true.

#[global] Instance under_dec p k : Decision (under p k).
Proof. unfold under. apply _. Defined.

(** [os.RemoveAll]: remove [p] and everything below it; no error when
    [p] does not exist. *)
Definition RemoveAll (fs : t) (p : string) : t :=
  filter (λ kv, ¬ under p kv.1) fs.

End FS.

(* ===================================================================== *)
(** ** The outside world: events, state, Docker, commands *)
(* ===================================================================== *)

(** What a run does to the outside world, in the order it does it.  A write
    and a command carry their outcome: [None] is success. *)
Inductive event : Type :=
| EvOpen (p : string)
| EvReadFile (p : string)
| EvStat (p : string)
| EvMkdirAll (p : string)
| EvWriteFile (p data : string) (failure : option error)
| EvRemoveAll (p : string)
| EvLog (msg : string)
| EvStdout (data : string)
| EvExec (dir : string) (argv : list string) (failure : option error)
| EvNewClient
| EvContainerInspect (id : string)
| EvImagePull (img : string)
| EvContainerCreate (image workingDir : string) (binds : list string)
    (name : string)
| EvContainerStart (id : string)
| EvContainerWait (id : string)
| EvContainerLogs (id : string).

#[global] Instance event_eq_dec : EqDecision event.
Proof. solve_decision. Defined.

Record State : Type := mkState {
  fs : gmap string node;
  environ : gmap string string;
}.

(** [types.MountPoint], [container.HostConfig] and [types.ContainerJSON],
    with the fields the code reads. *)
Record MountPoint : Type := { Source : string; Destination : string }.
Record HostConfigT : Type := { Binds : list string }.
Record ContainerJSON : Type := {
  HostConfig : HostConfigT;
  Mounts : list MountPoint;
}.

(** What the pair of channels of [ContainerWait] delivers to the [select]:
    a value on the error channel ([None] is a nil error) or the exit status
    on the status channel. *)
Inductive waitResult : Type :=
| OnErrCh (e : option error)
| OnStatusCh (statusCode : Z).

(** A stream handed out by Docker: the bytes it yields and the error the
    copy ends with, if any. *)
Definition stream : Type := string * option error.

(** The Docker daemon behind [cli]: its answer to each call, and what the
    helper container does to the bind-mounted directories while it runs. *)
Record Docker : Type := {
  ContainerInspect : string → error + ContainerJSON;
  ImagePull : string → error + stream;
  ContainerCreate : string → string → list string → string → error + string;
  ContainerStart : string → option error;
  ContainerWait : string → waitResult;
  helperRun : string → gmap string node → gmap string node;
  ContainerLogs : string → error + stream;
}.

(** Everything else a run depends on.  [SetDefaultEnv] belongs to the
    package but to another file; it is taken as given. *)
Record Env : Type := {
  verbose : bool;
  now : Z;
  runCommand : string → list string → gmap string node
               → gmap string node * string * option error;
  SetDefaultEnv : string → string → gmap string string → gmap string string;
  NewClientWithOpts : error + Docker;
}.

(* ===================================================================== *)
(** ** The monad of the embedding *)
(* ===================================================================== *)

(** A computation returns a value or an error, the state it leaves (also
    when it fails) and the events it caused. *)
Definition M (A : Type) : Type := State → (error + A) * State * list event.

#[global] Instance M_ret : MRet M := λ A a st, (inr a, st, []).

#[global] Instance M_bind : MBind M := λ A B f m st,
  match m st with
  | (inl e, st1, ev1) => (inl e, st1, ev1)
  | (inr a, st1, ev1) =>
      match f a st1 with
      | (r, st2, ev2) => (r, st2, ev1 ++ ev2)
      end
  end.

Definition fail {A} (e : error) : M A := λ st, (inl e, st, []).

(** [x, err := f()]: the error becomes a value. *)
Definition attempt {A} (m : M A) : M (error + A) := λ st,
  match m st with
  | (r, st1, ev1) => (inr r, st1, ev1)
  end.

(** [if err != nil { return errors.Wrap(err, msg) }]. *)
Definition wrap {A} (msg : string) (m : M A) : M A := λ st,
  match m st with
  | (inl e, st1, ev1) => (inl (Wrap e msg), st1, ev1)
  | r => r
  end.

Definition emit (e : event) : M unit := λ st, (inr (), st, [e]).

Definition getFS : M (gmap string node) := λ st, (inr (fs st), st, []).

Definition putFS (f : gmap string node) : M unit := λ st,
  (inr (), mkState f (environ st), []).

Definition ofResult {A} (r : error + A) : M A :=
  match r with
  | inl e => fail e
  | inr a => mret a
  end.

Definition ofError (r : option error) : M unit :=
  match r with
  | Some e => fail e
  | None => mret ()
  end.

(** The three components of a run. *)
Definition resultOf {A} (x : (error + A) * State * list event) : error + A := x.1.1.
Definition stateOf {A} (x : (error + A) * State * list event) : State := x.1.2.
Definition eventsOf {A} (x : (error + A) * State * list event) : list event := x.2.

Module os.

Definition Getenv (key : string) : M string := λ st,
  (inr (default "" (environ st !! key)), st, []).

Definition ReadFile (p : string) : M string :=
  _ ← emit (EvReadFile p);
  f ← getFS;
  ofResult (FS.ReadFile f p).

Definition Stat (p : string) : M bool :=
  _ ← emit (EvStat p);
  f ← getFS;
  ofResult (FS.Stat f p).

Definition MkdirAll (p : string) : M unit :=
  _ ← emit (EvMkdirAll p);
  f ← getFS;
  f' ← ofResult (FS.MkdirAll f p);
  putFS f'.

Definition WriteFile (p data : string) : M unit :=
  f ← getFS;
  match FS.WriteFile f p data with
  | inl e => _ ← emit (EvWriteFile p data (Some e)); fail e
  | inr f' => _ ← emit (EvWriteFile p data None); putFS f'
  end.

(** The caller ignores the result of [os.RemoveAll]. *)
Definition RemoveAll (p : string) : M unit :=
  _ ← emit (EvRemoveAll p);
  f ← getFS;
  putFS (FS.RemoveAll f p).

End os.

Definition logPrint (msg : string) : M unit := emit (EvLog msg).

(** An [io.Writer] of the code: [os.Stdout] or a [bytes.Buffer]. *)
Inductive writer : Type :=
| Stdout
| Buffer (contents : string).

Definition write (w : writer) (data : string) : M writer :=
  match w with
  | Stdout => _ ← emit (EvStdout data); mret Stdout
  | Buffer b => mret (Buffer (b +:+ data))
  end.

(** [io.Copy] and [stdcopy.StdCopy] into a writer: the bytes of the stream
    are written, then the stream's error, if any, is returned. *)
Definition copy (w : writer) (s : stream) : M writer :=
  w' ← write w s.1;
  _ ← ofError s.2;
  mret w'.

Definition bufferString (w : writer) : string :=
  match w with
  | Stdout => ""
  | Buffer b => b
  end.

Definition nl : string := String (GoStrings.byte 10) EmptyString.
Definition dquote : string := String (GoStrings.byte 34) EmptyString.

(** [%q] of a string, without the escapes of special bytes. *)
Definition quote (s : string) : string := dquote +:+ s +:+ dquote.

(* ===================================================================== *)
(** ** [execer] *)
(* ===================================================================== *)

(** Modelled from the spec: the [execer] type and its methods [Command]
    and [Error] live in a file of the package that is not at hand.  The
    spec describes it as one operation, "run this command sequence, capture
    combined output, fail fast on first non-zero exit": a command runs in
    [Dir] with its combined output sent to [Out]; once a command has failed
    the later ones are not run, and [Error] reports the first failure. *)
Record execer : Type := {
  Out : writer;
  Dir : string;
  err : option error;
}.

Definition Command (env : Env) (e : execer) (argv : list string) : M execer :=
  match err e with
  | Some _ => mret e
  | None =>
      f ← getFS;
      match runCommand env (Dir e) argv f with
      | (f', output, failure) =>
          _ ← emit (EvExec (Dir e) argv failure);
          _ ← putFS f';
          out ← write (Out e) output;
          mret {| Out := out; Dir := Dir e; err := failure |}
      end
  end.

Definition Error (e : execer) : option error := err e.

(** Successive [e.Command] calls. *)
Fixpoint Commands (env : Env) (e : execer) (cmds : list (list string))
  : M execer :=
  match cmds with
  | [] => mret e
  | argv :: rest => e' ← Command env e argv; Commands env e' rest
  end.

(* ===================================================================== *)
(** ** The code of [postgres.go] *)
(* ===================================================================== *)

Import GoStrings.

(** [containerID] retrieves the Docker container id of the running
    container from the first line of [/proc/self/cgroup]. *)
Definition containerID : M string :=
  _ ← emit (EvOpen "/proc/self/cgroup");
  f ← getFS;
  match f !! "/proc/self/cgroup" with
  | None =>
      fail (Wrap (ENOENT "/proc/self/cgroup")
              "failed to read /proc/self/cgroup to determine container id")
  | Some Directory =>
      fail (Wrap (EISDIR "/proc/self/cgroup")
              "failed to read first line of /proc/self/cgroup")
  | Some (File contents) =>
      match ReadString contents (byte 10) with
      | None => fail (Wrap EOF "failed to read first line of /proc/self/cgroup")
      | Some line =>
          match SplitN line "/"%char 3 with
          | [_; _; id] => mret (TrimSpace id)
          | _ => fail (New "failed to parse /proc/self/cgroup")
          end
      end
  end.

(** The loop over [c.HostConfig.Binds]. *)
Fixpoint scanBinds (binds : list string) (path : string) : option string :=
  match binds with
  | [] => None
  | bind :: rest =>
      match SplitN bind ":"%char 2 with
      | [src; dst] =>
          if decide (dst = path) then Some src else scanBinds rest path
      | _ => scanBinds rest path
      end
  end.

(** The loop over [c.Mounts]. *)
Fixpoint scanMounts (mounts : list MountPoint) (path : string) : option string :=
  match mounts with
  | [] => None
  | mount :: rest =>
      if decide (Destination mount = path) then Some (Source mount)
      else scanMounts rest path
  end.

Definition notFoundError (path id : string) : error :=
  New ("couldn't find host mountpoint of " +:+ quote path
       +:+ " on container " +:+ quote id).

(** [hostMountPoint] finds the Docker host mountpoint corresponding to the
    given path in the container with the given id, if any. *)
Definition hostMountPoint (cli : Docker) (id path : string) : M string :=
  _ ← emit (EvContainerInspect id);
  c ← wrap ("failed to inspect container " +:+ quote id)
        (ofResult (ContainerInspect cli id));
  match scanBinds (Binds (HostConfig c)) path with
  | Some src => mret src
  | None =>
      match scanMounts (Mounts c) path with
      | Some src => mret src
      | None => fail (notFoundError path id)
      end
  end.

Definition star : string := "✱".

(** The error of the recovery gate. *)
Definition interrupted : error :=
  New "Interrupted internal database upgrade detected".

(** The two remediation texts of the recovery gate. *)
Definition remediationSame (hostPath oldVersion newVersion hostUpgradeDir : string)
  : string :=
  "$ mv " +:+ hostPath +:+ " " +:+ hostPath +:+ "-" +:+ newVersion +:+ ".bak" +:+ nl
  +:+ "$ mv " +:+ hostPath +:+ "-" +:+ oldVersion +:+ " " +:+ hostPath +:+ nl
  +:+ "$ rm -rf " +:+ hostUpgradeDir.

Definition remediationDiffer (hostPath newVersion hostUpgradeDir : string)
  : string :=
  "$ mv " +:+ hostPath +:+ "-" +:+ newVersion +:+ " "
  +:+ hostPath +:+ "-" +:+ newVersion +:+ ".bak" +:+ nl
  +:+ "$ rm -rf " +:+ hostUpgradeDir.

(** The names [maybeUpgradePostgres] derives from its arguments, the
    version marker and the host mount point. *)
Definition upgradeDirOf (path oldVersion newVersion : string) : string :=
  Filepath.Join [Filepath.Dir path;
                 "." +:+ oldVersion +:+ "-to-" +:+ newVersion +:+ "-upgrade"].

Definition hostUpgradeDirOf (hostDataDir path oldVersion newVersion : string)
  : string :=
  Filepath.Join [hostDataDir;
                 Filepath.Base (upgradeDirOf path oldVersion newVersion)].

Definition statusFileOf (path oldVersion newVersion : string) : string :=
  Filepath.Join [upgradeDirOf path oldVersion newVersion; "status"].

Definition hostPathOf (hostDataDir path : string) : string :=
  Filepath.Join [hostDataDir; Filepath.Base path].

Definition markerFileOf (path : string) : string :=
  Filepath.Join [path; "PG_VERSION"].

(** The read of the status ledger: the file's contents, nothing when the
    file does not exist, trimmed. *)
Definition readStatus (statusFile : string) : M string :=
  r ← attempt (os.ReadFile statusFile);
  bs ← match r with
       | inl e =>
           if IsNotExist e then mret ""
           else fail (Wrap e "failed to read status file")
       | inr bs => mret bs
       end;
  mret (TrimSpace bs).

(** What [maybeUpgradePostgres] knows when it comes to the recovery gate. *)
Record locals : Type := {
  cli : Docker;
  oldVersion : string;
  hostDataDir : string;
  status : string;  (** possible values: [""], ["started"], ["done"] *)
}.

(** [maybeUpgradePostgres] up to the recovery gate: the version marker, the
    container id, the Docker client, the host mount point, the upgrade
    directory and the status. *)
Definition upgradeLocals (env : Env) (path newVersion : string) : M locals :=
  bs ← wrap "failed to detect version of existing Postgres data"
         (os.ReadFile (markerFileOf path));
  id ← wrap "failed to determine running container id" containerID;
  _ ← emit EvNewClient;
  cli ← wrap "failed to initialise docker client"
          (ofResult (NewClientWithOpts env));
  hostDataDir ← wrap "failed to determine host mount point"
                  (hostMountPoint cli id (Filepath.Dir path));
  let oldVersion := TrimSpace bs in
  _ ← wrap "failed to create upgrade dir"
        (os.MkdirAll (upgradeDirOf path oldVersion newVersion));
  status ← readStatus (statusFileOf path oldVersion newVersion);
  mret {| cli := cli; oldVersion := oldVersion;
          hostDataDir := hostDataDir; status := status |}.

Definition interruptedNotice : string :=
  star +:+ " Sourcegraph was previously interrupted while upgrading its internal database.".

Definition retryNotice : string :=
  star +:+ " To try again, start the container after running these commands (safe):" +:+ nl.

Definition upgradingNotice : string :=
  star +:+ " Sourcegraph is upgrading its internal database. Please don't interrupt this operation.".

(** The recovery gate: what is logged when the status reads [started]. *)
Definition recoveryGate (path newVersion : string) (l : locals) : M unit :=
  let hostPath := hostPathOf (hostDataDir l) path in
  let hostUpgradeDir :=
    hostUpgradeDirOf (hostDataDir l) path (oldVersion l) newVersion in
  _ ← logPrint interruptedNotice;
  _ ← logPrint retryNotice;
  _ ← (if decide (oldVersion l = newVersion)
       then logPrint (remediationSame hostPath (oldVersion l) newVersion
                        hostUpgradeDir)
       else logPrint (remediationDiffer hostPath newVersion hostUpgradeDir));
  fail interrupted.

(** The helper container's bind mounts. *)
Definition helperBinds (hostUpgradeDir hostPath oldVersion newVersion : string)
  : list string :=
  [ hostUpgradeDir +:+ ":" +:+ "/tmp/upgrade";
    hostPath +:+ ":/var/lib/postgresql/" +:+ oldVersion +:+ "/data";
    hostPath +:+ "-" +:+ newVersion +:+ ":/var/lib/postgresql/"
      +:+ newVersion +:+ "/data" ].

(** The four commands run after the helper container. *)
Definition finalizeCommands (path oldVersion newVersion : string)
  : list (list string) :=
  [ ["mv"; path; path +:+ "-" +:+ oldVersion];
    ["mv"; path +:+ "-" +:+ newVersion; path];
    ["chown"; "-R"; "postgres"; path];
    ["su-exec"; "postgres"; "/postgres-optimize.sh"; path] ].

(** [maybeUpgradePostgres] past the gate and the version comparison: the
    upgrade itself. *)
Definition runUpgrade (env : Env) (path newVersion : string) (l : locals)
  : M unit :=
  let cli := cli l in
  let oldVersion := oldVersion l in
  let upgradeDir := upgradeDirOf path oldVersion newVersion in
  let hostUpgradeDir :=
    hostUpgradeDirOf (hostDataDir l) path oldVersion newVersion in
  let statusFile := statusFileOf path oldVersion newVersion in
  let hostPath := hostPathOf (hostDataDir l) path in
  _ ← logPrint upgradingNotice;
  _ ← wrap "failed to create status file" (os.WriteFile statusFile "started");
  let output := if verbose env then Stdout else Buffer "" in
  let img := "tianon/postgres-upgrade:" +:+ oldVersion +:+ "-to-" +:+ newVersion in
  _ ← emit (EvImagePull img);
  out ← wrap ("failed to pull " +:+ quote img) (ofResult (ImagePull cli img));
  output ← wrap "failed to read output of docker pull" (copy output out);
  let binds := helperBinds hostUpgradeDir hostPath oldVersion newVersion in
  let name := "sourcegraph-postgres-upgrade-" +:+ pretty (now env) in
  _ ← emit (EvContainerCreate img "/tmp/upgrade" binds name);
  respID ← wrap ("failed to create " +:+ quote name)
             (ofResult (ContainerCreate cli img "/tmp/upgrade" binds name));
  _ ← emit (EvContainerStart respID);
  _ ← wrap ("failed to start " +:+ quote name)
        (ofError (ContainerStart cli respID));
  _ ← emit (EvContainerWait respID);
  f ← getFS;
  _ ← putFS (helperRun cli respID f);
  _ ← match ContainerWait cli respID with
      | OnErrCh (Some e) => fail (Wrap e "failed to upgrade postgres")
      | OnErrCh None => mret ()
      | OnStatusCh _ => mret ()
      end;
  _ ← emit (EvContainerLogs respID);
  out ← wrap ("failed to retrieve " +:+ quote name +:+ " logs")
          (ofResult (ContainerLogs cli respID));
  output ← wrap "failed to copy logs to output" (copy output out);
  let e := {| Out := output; Dir := upgradeDir; err := None |} in
  e ← Commands env e (finalizeCommands path oldVersion newVersion);
  match Error e with
  | Some err =>
      _ ← match Out e with
          | Buffer b => if negb (verbose env) then logPrint b else mret ()
          | Stdout => mret ()
          end;
      fail (Wrap err "postgres upgrade failed after running pg_upgrade")
  | None =>
      wrap "failed to create status file" (os.WriteFile statusFile "done")
  end.

(** [maybeUpgradePostgres] upgrades the Postgres data files in [path] to
    the given version if they're not already upgraded.  It requires access
    to the host's Docker socket. *)
Definition maybeUpgradePostgres (env : Env) (path newVersion : string) : M unit :=
  l ← upgradeLocals env path newVersion;
  if decide (status l = "started") then recoveryGate path newVersion l
  else if decide (oldVersion l = newVersion) then mret ()
  else runUpgrade env path newVersion l.

(** The command line handed back for the process file. *)
Definition procLine (path : string) : string :=
  "postgres: su-exec postgres sh -c 'postgres -c listen_addresses=127.0.0.1 -D "
  +:+ path
  +:+ "' 2>&1 | grep -v 'database system was shut down' | grep -v 'MultiXact member wraparound' | grep -v 'database system is ready' | grep -v 'autovacuum launcher started' | grep -v 'the database system is starting up'".

Definition setDefaultEnv (env : Env) (k v : string) : M unit := λ st,
  (inr (), mkState (fs st) (SetDefaultEnv env k v (environ st)), []).

(** The six commands that initialise a fresh data directory. *)
Definition initCommands (path : string) : list (list string) :=
  [ ["mkdir"; "-p"; path];
    ["chown"; "postgres"; path];
    ["su-exec"; "postgres"; "initdb"; "-D"; path; "--nosync"];
    ["su-exec"; "postgres"; "pg_ctl"; "-D"; path;
     "-o -c listen_addresses=127.0.0.1"; "-l"; "/tmp/pgsql.log"; "-w"; "start"];
    ["su-exec"; "postgres"; "createdb"; "sourcegraph"];
    ["su-exec"; "postgres"; "pg_ctl"; "-D"; path; "-m"; "fast";
     "-l"; "/tmp/pgsql.log"; "-w"; "stop"] ].

(** The two commands that prepare [/run/postgresql]. *)
Definition runDirCommands : list (list string) :=
  [ ["mkdir"; "-p"; "/run/postgresql"];
    ["chown"; "-R"; "postgres"; "/run/postgresql"] ].

Definition freshExecer : execer := {| Out := Buffer ""; Dir := ""; err := None |}.

(** The branch of [maybePostgresProcFile] taken when the data directory
    does not exist: initialise it, and remove it again when that fails. *)
Definition initialize (env : Env) (path : string) : M unit :=
  _ ← (if verbose env
       then logPrint ("Setting up PostgreSQL at " +:+ path)
       else mret ());
  _ ← logPrint (star +:+ " Sourcegraph is initializing the internal database... (may take 15-20 seconds)");
  e ← Commands env freshExecer (initCommands path);
  match Error e with
  | Some err =>
      _ ← logPrint ("Setting up postgres failed:" +:+ nl +:+ bufferString (Out e));
      _ ← os.RemoveAll path;
      fail err
  | None => mret ()
  end.

(** The branch taken when the data directory exists. *)
Definition adjustAndUpgrade (env : Env) (path : string) : M unit :=
  e ← Command env freshExecer ["chown"; "-R"; "postgres"; path];
  match Error e with
  | Some err =>
      _ ← logPrint ("Adjusting fs owners for postgres failed:" +:+ nl
                    +:+ bufferString (Out e));
      fail err
  | None =>
      v ← os.Getenv "PG_VERSION";
      let version := TrimSpace v in
      let version := if decide (version = "") then "11" else version in
      maybeUpgradePostgres env path version
  end.

Definition dataPath (dataDir : string) : string :=
  Filepath.Join [dataDir; "postgresql"].

Definition maybePostgresProcFile (env : Env) : M string :=
  pghost ← os.Getenv "PGHOST";
  pgdatasource ← os.Getenv "PGDATASOURCE";
  if negb (bool_decide (pghost = "")) || negb (bool_decide (pgdatasource = ""))
  then mret ""
  else
    e ← Commands env freshExecer runDirCommands;
    match Error e with
    | Some err =>
        _ ← logPrint ("Setting up postgres failed:" +:+ nl +:+ bufferString (Out e));
        fail err
    | None =>
        dataDir ← os.Getenv "DATA_DIR";
        let path := dataPath dataDir in
        r ← attempt (os.Stat path);
        _ ← match r with
            | inl err =>
                if negb (IsNotExist err) then fail err
                else initialize env path
            | inr _ => adjustAndUpgrade env path
            end;
        _ ← setDefaultEnv env "PGHOST" "127.0.0.1";
        _ ← setDefaultEnv env "PGUSER" "postgres";
        _ ← setDefaultEnv env "PGDATABASE" "sourcegraph";
        _ ← setDefaultEnv env "PGSSLMODE" "disable";
        mret (procLine path)
    end.

(* ===================================================================== *)
(** ** Vocabulary for the properties *)
(* ===================================================================== *)

Fixpoint contains (c : ascii) (s : string) : bool :=
  match s with
  | EmptyString => false
  | String c' s' => if Ascii.eqb c' c then true else contains c s'
  end.

(** The bind string [bind] pairs the host path [src] with the container
    path [dst]: it is [src], a colon and [dst], and [src] has no colon.
    As in the code, [dst] is all that follows the first colon. *)
Definition bindsTo (bind src dst : string) : Prop :=
  bind = src +:+ ":" +:+ dst ∧ contains ":"%char src = false.

(** Events on the helper image and container. *)
Definition isHelperOp (e : event) : bool :=
  match e with
  | EvImagePull _ | EvContainerCreate _ _ _ _ | EvContainerStart _
  | EvContainerWait _ | EvContainerLogs _ => true
  | _ => false
  end.

Definition isWrite (e : event) : bool :=
  match e with
  | EvWriteFile _ _ _ => true
  | _ => false
  end.

Definition isExec (e : event) : bool :=
  match e with
  | EvExec _ _ _ => true
  | _ => false
  end.

Definition isRemove (e : event) : bool :=
  match e with
  | EvRemoveAll _ => true
  | _ => false
  end.

(** Events that change the file system or act on the helper container. *)
Definition isAction (e : event) : bool :=
  isHelperOp e || isWrite e || isExec e || isRemove e.

(** Events that change the file system. *)
Definition mutatesFS (e : event) : bool :=
  match e with
  | EvMkdirAll _ | EvWriteFile _ _ _ | EvRemoveAll _ | EvExec _ _ _ => true
  | _ => false
  end.

(** What a run does up to and including the read of the status ledger. *)
Definition gateEvents (path newVersion id oldVersion : string) : list event :=
  [ EvReadFile (markerFileOf path);
    EvOpen "/proc/self/cgroup";
    EvNewClient;
    EvContainerInspect id;
    EvMkdirAll (upgradeDirOf path oldVersion newVersion);
    EvReadFile (statusFileOf path oldVersion newVersion) ].

(** The four commands of the finalization, run in [dir], all successful. *)
Definition finalizeEvents (dir path oldVersion newVersion : string)
  : list event :=
  (λ argv, EvExec dir argv None) <$> finalizeCommands path oldVersion newVersion.

(** The remediation text the recovery gate chooses. *)
Definition remediation (path newVersion : string) (l : locals) : string :=
  if decide (oldVersion l = newVersion)
  then remediationSame (hostPathOf (hostDataDir l) path) (oldVersion l)
         newVersion
         (hostUpgradeDirOf (hostDataDir l) path (oldVersion l) newVersion)
  else remediationDiffer (hostPathOf (hostDataDir l) path) newVersion
         (hostUpgradeDirOf (hostDataDir l) path (oldVersion l) newVersion).

(** The status that the result of reading the status file stands for. *)
Definition statusOf (r : error + string) : error + string :=
  match r with
  | inr bs => inr (TrimSpace bs)
  | inl e =>
      if IsNotExist e then inr ""
      else inl (Wrap e "failed to read status file")
  end.

(** A run whose events come after the events [ev0]. *)
Definition after {A} (ev0 : list event) (x : (error + A) * State * list event)
  : (error + A) * State * list event :=
  match x with
  | (r, s, ev) => (r, s, ev0 ++ ev)
  end.

(** What [write] leaves in the writer and in the trace. *)
Definition written (w : writer) (data : string) : writer :=
  match w with
  | Stdout => Stdout
  | Buffer b => Buffer (b +:+ data)
  end.

Definition writeEvents (w : writer) (data : string) : list event :=
  match w with
  | Stdout => [EvStdout data]
  | Buffer _ => []
  end.

(** Events that act on the data directory: a command, a removal, or the
    helper container, which has the directory bind-mounted. *)
Definition touchesData (e : event) : bool :=
  isExec e || isRemove e || isHelperOp e.

(** The claim that the recovery gate comes first, as the spec words it:
    the status file is read before the version marker is read and before
    anything changes the file system. *)
Definition specGateFirst (path newVersion oldVersion : string)
  (tr : list event) : Prop :=
  ∃ i, tr !! i = Some (EvReadFile (statusFileOf path oldVersion newVersion))
       ∧ ∀ j e, tr !! j = Some e →
                e = EvReadFile (markerFileOf path) ∨ mutatesFS e = true →
                i < j.


(* ===================================================================== *)
(** ** Concrete worlds *)
(* ===================================================================== *)

Module Scenario.

Fixpoint dropBytes (n : nat) (s : string) : string :=
  match n, s with
  | S n', String _ s' => dropBytes n' s'
  | _, _ => s
  end.

(** [mv a b]: the node at [a] and all below it move to [b]. *)
Definition rename (a b : string) (f : gmap string node) : gmap string node :=
  list_to_map
    ((λ kn : string * node,
        (if decide (FS.under a kn.1)
         then b +:+ dropBytes (String.length a) kn.1 else kn.1, kn.2))
       <$> map_to_list f).

(** Commands as they behave when nothing goes wrong: [mkdir -p] and [mv]
    act on the file system, the others leave it alone. *)
Definition commandsSucceed (dir : string) (argv : list string)
  (f : gmap string node) : gmap string node * string * option error :=
  match argv with
  | ["mkdir"; "-p"; p] =>
      match FS.MkdirAll f p with
      | inr f' => (f', "", None)
      | inl e => (f, "mkdir failed", Some e)
      end
  | ["mv"; a; b] => (rename a b f, "", None)
  | _ => (f, "", None)
  end.

(** The same, but [initdb] fails. *)
Definition initdbFails (dir : string) (argv : list string)
  (f : gmap string node) : gmap string node * string * option error :=
  match argv with
  | "su-exec" :: "postgres" :: "initdb" :: _ =>
      (f, "initdb: error", Some (External "exit status 1"))
  | _ => commandsSucceed dir argv f
  end.

Definition cgroupLine : string :=
  "11:hugetlb:/docker/abc123" +:+ nl.

(** A data directory written by version [v], inside a container. *)
Definition dataFS (v : string) : gmap string node :=
  <["/proc/self/cgroup" := File cgroupLine]>
  (<["/data" := Directory]>
  (<["/data/postgresql" := Directory]>
  (<["/data/postgresql/PG_VERSION" := File (v +:+ nl)]> ∅))).

(** The same with a status ledger for the upgrade from [v] to [w]. *)
Definition ledgerFS (v w contents : string) : gmap string node :=
  <["/data/." +:+ v +:+ "-to-" +:+ w +:+ "-upgrade" := Directory]>
  (<["/data/." +:+ v +:+ "-to-" +:+ w +:+ "-upgrade/status" := File contents]>
     (dataFS v)).

(** The same data directory outside a container: no cgroup file. *)
Definition bareFS (v : string) : gmap string node :=
  delete "/proc/self/cgroup" (dataFS v).

(** A container in which the data directory has not been created yet. *)
Definition freshFS : gmap string node :=
  <["/proc/self/cgroup" := File cgroupLine]> (<["/data" := Directory]> ∅).

Definition inspected : ContainerJSON :=
  {| HostConfig := {| Binds := ["/host/data:/data"] |}; Mounts := [] |}.

(** A daemon that does all it is asked; the wait delivers [w]. *)
Definition daemon (w : waitResult) : Docker := {|
  ContainerInspect := λ _, inr inspected;
  ImagePull := λ _, inr ("pulled", None);
  ContainerCreate := λ _ _ _ _, inr "c1";
  ContainerStart := λ _, None;
  ContainerWait := λ _, w;
  helperRun := λ _ f, <["/data/postgresql-11" := Directory]> f;
  ContainerLogs := λ _, inr ("pg_upgrade output", None);
|}.

Definition world (w : waitResult) : Env := {|
  verbose := false;
  now := 1234;
  runCommand := commandsSucceed;
  SetDefaultEnv := λ k v e, match e !! k with Some _ => e | None => <[k := v]> e end;
  NewClientWithOpts := inr (daemon w);
|}.

Definition worldInitdbFails : Env := {|
  verbose := false;
  now := 1234;
  runCommand := initdbFails;
  SetDefaultEnv := λ k v e, match e !! k with Some _ => e | None => <[k := v]> e end;
  NewClientWithOpts := inr (daemon (OnStatusCh 0));
|}.

Definition path : string := "/data/postgresql".

Definition start (f : gmap string node) : State :=
  mkState f {[ "DATA_DIR" := "/data" ]}.

End Scenario.

(* ===================================================================== *)
(** ** Vocabulary for the further properties *)
(* ===================================================================== *)



Definition isStdout (e : event) : bool :=
  match e with
  | EvStdout _ => true
  | _ => false
  end.


(** The helper container leaves the file at [p] alone; and so do the
    commands [cmds] when they are run in [dir]. *)
Definition helperKeeps (cli : Docker) (p : string) : Prop :=
  ∀ id f, helperRun cli id f !! p = f !! p.

Definition commandsKeep (env : Env) (dir : string) (cmds : list (list string))
  (p : string) : Prop :=
  ∀ argv f, argv ∈ cmds → (runCommand env dir argv f).1.1 !! p = f !! p.

(** The version [maybePostgresProcFile] asks for, given [PG_VERSION]. *)
Definition wantedVersion (pgVersion : string) : string :=
  if decide (TrimSpace pgVersion = "") then "11" else TrimSpace pgVersion.

(** The environment once the four defaults have been set. *)
Definition withDefaults (env : Env) (e : gmap string string)
  : gmap string string :=
  SetDefaultEnv env "PGSSLMODE" "disable"
    (SetDefaultEnv env "PGDATABASE" "sourcegraph"
       (SetDefaultEnv env "PGUSER" "postgres"
          (SetDefaultEnv env "PGHOST" "127.0.0.1" e))).

Module Scenario2.

(** Commands as in [Scenario.commandsSucceed], except that the
    optimization script fails. *)
Definition optimizeFails (dir : string) (argv : list string)
  (f : gmap string node) : gmap string node * string * option error :=
  match argv with
  | "su-exec" :: "postgres" :: "/postgres-optimize.sh" :: _ =>
      (f, "optimize: error", Some (External "exit status 2"))
  | _ => Scenario.commandsSucceed dir argv f
  end.

Definition worldOptimizeFails : Env := {|
  verbose := false;
  now := 1234;
  runCommand := optimizeFails;
  SetDefaultEnv := λ k v e, match e !! k with Some _ => e | None => <[k := v]> e end;
  NewClientWithOpts := inr (Scenario.daemon (OnStatusCh 0));
|}.



(** A daemon whose container has its data directory bound read-only and
    lists no mounts. *)
Definition inspectedReadOnly : ContainerJSON :=
  {| HostConfig := {| Binds := ["/host/data:/data:ro"] |}; Mounts := [] |}.

Definition daemonReadOnly : Docker := {|
  ContainerInspect := λ _, inr inspectedReadOnly;
  ImagePull := λ _, inr ("pulled", None);
  ContainerCreate := λ _ _ _ _, inr "c1";
  ContainerStart := λ _, None;
  ContainerWait := λ _, OnStatusCh 0;
  helperRun := λ _ f, f;
  ContainerLogs := λ _, inr ("", None);
|}.

(** A Kubernetes-style cgroup file. *)
Definition kubeFS : gmap string node :=
  {[ "/proc/self/cgroup"
     := File ("11:hugetlb:/kubepods/besteffort/pod42/abc123" +:+ nl
              +:+ "10:cpu:/kubepods" +:+ nl) ]}.

End Scenario2.

(** Events of the discovery that precedes the recovery gate. *)
Definition isDiscovery (e : event) : bool :=
  match e with
  | EvReadFile _ | EvOpen _ | EvNewClient | EvContainerInspect _
  | EvMkdirAll _ => true
  | _ => false
  end.

(** What [maybePostgresProcFile] makes of the outcome of its branch: an
    error is returned as it is; otherwise the four defaults are set and the
    command line is returned. *)
Definition finish (env : Env) (path : string)
  (x : (error + unit) * State * list event)
  : (error + string) * State * list event :=
  match x with
  | (inl e, s, ev) => (inl e, s, ev)
  | (inr _, s, ev) =>
      (inr (procLine path), mkState (fs s) (withDefaults env (environ s)), ev)
  end.

(** Postgres is configured from outside. *)
Definition configured (st : State) : bool :=
  negb (bool_decide (default "" (environ st !! "PGHOST") = ""))
  || negb (bool_decide (default "" (environ st !! "PGDATASOURCE") = "")).

(** What is logged before a fresh data directory is set up. *)
Definition initNotice : string :=
  star +:+ " Sourcegraph is initializing the internal database... (may take 15-20 seconds)".

Definition initPrelude (env : Env) (path : string) : list event :=
  (if verbose env then [EvLog ("Setting up PostgreSQL at " +:+ path)] else [])
  ++ [EvLog initNotice].


(* ===================================================================== *)
(** * Properties *)
(* ===================================================================== *)

(** ** The library models on examples *)

Example TrimSpace_marker : TrimSpace (" 9.6" +:+ nl) = "9.6".
Proof. reflexivity. Qed.

Example TrimSpace_nbsp :
  TrimSpace (String (byte 194) (String (byte 160) "done")) = "done".
Proof. reflexivity. Qed.

Example TrimSpace_inner : TrimSpace (nl +:+ "a b" +:+ nl) = "a b".
Proof. reflexivity. Qed.

Example SplitN_bind :
  SplitN "/host/data:/data:ro" ":"%char 2 = ["/host/data"; "/data:ro"].
Proof. reflexivity. Qed.

Example SplitN_cgroup :
  SplitN Scenario.cgroupLine "/"%char 3 = ["11:hugetlb:"; "docker"; "abc123" +:+ nl].
Proof. reflexivity. Qed.

Example Join_upgrade_dir :
  upgradeDirOf "/var/opt/data/postgresql" "9.6" "11"
  = "/var/opt/data/.9.6-to-11-upgrade".
Proof. reflexivity. Qed.

Example Base_path : Filepath.Base "/var/opt/data/postgresql" = "postgresql".
Proof. reflexivity. Qed.

Example Clean_dots : Filepath.Clean "a/../../b/./c//" = "../b/c".
Proof. reflexivity. Qed.

Example prefixes_abs :
  FS.prefixes "/data/.9.6-to-11-upgrade" = ["/data"; "/data/.9.6-to-11-upgrade"].
Proof. reflexivity. Qed.

Example MkdirAll_fresh :
  FS.MkdirAll {[ "/data" := Directory ]} "/data/up"
  = inr (<["/data/up" := Directory]> {[ "/data" := Directory ]}).
Proof. reflexivity. Qed.

Example RemoveAll_tree :
  FS.RemoveAll (<["/d/pg/PG_VERSION" := File "11"]>
                  (<["/d/pg" := Directory]> (<["/d/pgx" := File "x"]> ∅))) "/d/pg"
  = {[ "/d/pgx" := File "x" ]}.
Proof. vm_compute. reflexivity. Qed.

(** ** Splitting strings *)

Section Splitting.

Variable sep : ascii.

Lemma cut_inv s a b :
  cut sep s = Some (a, b) → s = a +:+ String sep b ∧ contains sep a = false.
Proof.
  revert a. induction s as [|c s IH]; intros a; simpl; [done|].
  destruct (Ascii.eqb_spec c sep) as [->|Hne].
  - intros [= <- <-]. done.
  - destruct (cut sep s) as [[a' b']|] eqn:Hcut; [|done].
    intros [= <- <-]. destruct (IH a' eq_refl) as [-> Hno].
    split; [done|]. simpl.
    destruct (Ascii.eqb_spec c sep); [done|exact Hno].
Qed.

Lemma cut_intro a b :
  contains sep a = false → cut sep (a +:+ String sep b) = Some (a, b).
Proof.
  induction a as [|c a IH]; simpl.
  - intros _. by rewrite Ascii.eqb_refl.
  - destruct (Ascii.eqb c sep); [done|]. intros H. by rewrite (IH H).
Qed.

(** Two pieces come out exactly when the separator occurs, and they are
    what precedes and what follows its first occurrence. *)
Lemma SplitN_two s a b :
  SplitN s sep 2 = [a; b] ↔ s = a +:+ String sep b ∧ contains sep a = false.
Proof.
  simpl. split.
  - destruct (cut sep s) as [[a' b']|] eqn:Hcut; [|done].
    intros [= <- <-]. by apply cut_inv.
  - intros [-> Hno]. by rewrite cut_intro.
Qed.

Lemma SplitN_two_length s :
  length (SplitN s sep 2) = 2 → ∃ a b, SplitN s sep 2 = [a; b].
Proof.
  simpl. destruct (cut sep s) as [[a b]|]; [eauto|done].
Qed.

End Splitting.

(** ** Host path resolution *)

Lemma bindsTo_SplitN bind src dst :
  bindsTo bind src dst ↔ SplitN bind ":"%char 2 = [src; dst].
Proof. unfold bindsTo. by rewrite SplitN_two. Qed.

(** The first bind with destination [path] decides the scan. *)
Lemma scanBinds_first binds path i bind src :
  binds !! i = Some bind →
  bindsTo bind src path →
  (∀ j b s, j < i → binds !! j = Some b → ¬ bindsTo b s path) →
  scanBinds binds path = Some src.
Proof.
  revert i. induction binds as [|b0 binds IH]; intros i Hi Hb Hbefore; [done|].
  destruct i as [|i]; simpl in Hi.
  - injection Hi as ->. apply bindsTo_SplitN in Hb.
    cbn [scanBinds]. rewrite Hb. by rewrite decide_True.
  - cbn [scanBinds].
    assert (∀ s, ¬ bindsTo b0 s path) as Hb0.
    { intros s. apply (Hbefore 0 b0 s); [lia|done]. }
    assert (scanBinds binds path = Some src) as Hrest.
    { apply (IH i); [done|done|].
      intros j b s Hj Hjb. apply (Hbefore (S j) b s); [lia|done]. }
    destruct (SplitN b0 ":"%char 2) as [|s0 [|d0 [|? ?]]] eqn:Hsplit; try done.
    destruct (decide (d0 = path)) as [->|]; [|done].
    exfalso. apply (Hb0 s0). by apply bindsTo_SplitN.
Qed.

Lemma scanBinds_none binds path :
  (∀ b s, b ∈ binds → ¬ bindsTo b s path) → scanBinds binds path = None.
Proof.
  induction binds as [|b0 binds IH]; intros Hno; [done|].
  cbn [scanBinds].
  assert (scanBinds binds path = None) as Hrest.
  { apply IH. intros b s Hb. apply Hno. by right. }
  destruct (SplitN b0 ":"%char 2) as [|s0 [|d0 [|? ?]]] eqn:Hsplit; try done.
  destruct (decide (d0 = path)) as [->|]; [|done].
  exfalso. apply (Hno b0 s0); [by left|]. by apply bindsTo_SplitN.
Qed.

Lemma scanMounts_first mounts path i m :
  mounts !! i = Some m →
  Destination m = path →
  (∀ j m', j < i → mounts !! j = Some m' → Destination m' ≠ path) →
  scanMounts mounts path = Some (Source m).
Proof.
  revert i. induction mounts as [|m0 mounts IH]; intros i Hi Hm Hbefore; [done|].
  destruct i as [|i]; simpl in Hi.
  - injection Hi as ->. cbn [scanMounts]. by rewrite decide_True.
  - cbn [scanMounts]. rewrite decide_False.
    + apply (IH i); [done|done|].
      intros j m' Hj Hjm. apply (Hbefore (S j) m'); [lia|done].
    + apply (Hbefore 0 m0); [lia|done].
Qed.

Lemma scanMounts_none mounts path :
  (∀ m, m ∈ mounts → Destination m ≠ path) → scanMounts mounts path = None.
Proof.
  induction mounts as [|m0 mounts IH]; intros Hno; [done|].
  cbn [scanMounts]. rewrite decide_False; [|apply Hno; by left].
  apply IH. intros m Hm. apply Hno. by right.
Qed.

Lemma hostMountPoint_result cli id path st c :
  ContainerInspect cli id = inr c →
  resultOf (hostMountPoint cli id path st)
  = match scanBinds (Binds (HostConfig c)) path with
    | Some src => inr src
    | None => match scanMounts (Mounts c) path with
              | Some src => inr src
              | None => inl (notFoundError path id)
              end
    end.
Proof.
  intros Hc. unfold hostMountPoint, resultOf, mbind, M_bind, wrap, emit.
  rewrite Hc. simpl.
  destruct (scanBinds _ _); [done|]. by destruct (scanMounts _ _).
Qed.

Lemma append_not_self s t : t ≠ "" → s +:+ t ≠ s.
Proof.
  intros Ht. induction s as [|c s IH].
  - exact Ht.
  - change (String c s +:+ t) with (String c (s +:+ t)).
    intros [= H]. by apply IH.
Qed.

(** C7, as the code has it.  A bind is read as the text before its first
    colon, the source, and all the text after it, which is compared with
    the requested path as a whole.  Host path resolution answers with the
    source of the first bind for which that text is exactly the path; when
    there is none, with the source of the first mount whose destination is
    exactly the path; and when no bind and no mount matches (a bind for a
    parent directory does not count), it fails with the error that no host
    mount point was found.  In particular binds that have the path as
    their destination but carry options after it ([src:path:opts]) are
    not matched: with only such binds and no matching mount the
    resolution fails. *)
Theorem hostMountPoint_exact_destination cli id path st c :
  ContainerInspect cli id = inr c →
  let r := resultOf (hostMountPoint cli id path st) in
  (∀ i bind src,
      Binds (HostConfig c) !! i = Some bind →
      bindsTo bind src path →
      (∀ j b s, j < i → Binds (HostConfig c) !! j = Some b → ¬ bindsTo b s path) →
      r = inr src)
  ∧ (∀ i m,
      (∀ b s, b ∈ Binds (HostConfig c) → ¬ bindsTo b s path) →
      Mounts c !! i = Some m →
      Destination m = path →
      (∀ j m', j < i → Mounts c !! j = Some m' → Destination m' ≠ path) →
      r = inr (Source m))
  ∧ ((∀ b s, b ∈ Binds (HostConfig c) → ¬ bindsTo b s path) →
     (∀ m, m ∈ Mounts c → Destination m ≠ path) →
     r = inl (notFoundError path id))
  ∧ ((∀ b, b ∈ Binds (HostConfig c) →
           ∃ src opts, b = src +:+ ":" +:+ path +:+ ":" +:+ opts
                       ∧ contains ":"%char src = false) →
     (∀ m, m ∈ Mounts c → Destination m ≠ path) →
     r = inl (notFoundError path id)).
Proof.
  intros Hc r. subst r. rewrite (hostMountPoint_result _ _ _ _ _ Hc).
  split; [|split; [|split]].
  - intros i bind src Hi Hb Hbefore.
    by rewrite (scanBinds_first _ _ _ _ _ Hi Hb Hbefore).
  - intros i m Hno Hi Hm Hbefore.
    rewrite (scanBinds_none _ _ Hno).
    by rewrite (scanMounts_first _ _ _ _ Hi Hm Hbefore).
  - intros Hnob Hnom.
    by rewrite (scanBinds_none _ _ Hnob), (scanMounts_none _ _ Hnom).
  - intros Hopts Hnom.
    rewrite scanBinds_none, (scanMounts_none _ _ Hnom); [done|].
    intros b s Hb Hto. apply bindsTo_SplitN in Hto.
    destruct (Hopts b Hb) as (src & opts & -> & Hsrc).
    change (SplitN ?x ?sep 2)
      with (match cut sep x with
            | Some (a, b) => [a; b]
            | None => [x]
            end) in Hto.
    assert (cut ":"%char (src +:+ ":" +:+ path +:+ ":" +:+ opts)
            = Some (src, path +:+ ":" +:+ opts)) as Hcut
      by exact (cut_intro ":"%char src (path +:+ ":" +:+ opts) Hsrc).
    rewrite Hcut in Hto.
    injection Hto as _ Hto.
    by apply (append_not_self path (":" +:+ opts)).
Qed.

(** The spec's example: with the one bind [/host/data:/data], [/data]
    resolves to [/host/data] and [/data/sub] is not found; and with the one
    bind [/host/data:/data:ro], [/data] is not found. *)
Lemma hostMountPoint_exact_destination_witness :
  resultOf (hostMountPoint (Scenario.daemon (OnStatusCh 0)) "abc123" "/data"
              (Scenario.start ∅)) = inr "/host/data"
  ∧ resultOf (hostMountPoint (Scenario.daemon (OnStatusCh 0)) "abc123" "/data/sub"
                (Scenario.start ∅)) = inl (notFoundError "/data/sub" "abc123")
  ∧ resultOf (hostMountPoint Scenario2.daemonReadOnly "abc123" "/data"
                (Scenario.start ∅)) = inl (notFoundError "/data" "abc123").
Proof.
  split; [|split].
  - apply (proj1 (hostMountPoint_exact_destination
                    (Scenario.daemon (OnStatusCh 0)) "abc123" "/data"
                    (Scenario.start ∅) Scenario.inspected eq_refl)
             0 "/host/data:/data" "/host/data").
    + reflexivity.
    + split; reflexivity.
    + intros j b s Hj. lia.
  - apply (proj1 (proj2 (proj2 (hostMountPoint_exact_destination
                    (Scenario.daemon (OnStatusCh 0)) "abc123" "/data/sub"
                    (Scenario.start ∅) Scenario.inspected eq_refl)))).
    + intros b s Hb Hbind. simpl in Hb.
      apply list_elem_of_singleton in Hb. subst b.
      apply bindsTo_SplitN in Hbind. discriminate Hbind.
    + intros m Hm. simpl in Hm. by apply elem_of_nil in Hm.
  - apply (proj2 (proj2 (proj2 (hostMountPoint_exact_destination
                    Scenario2.daemonReadOnly "abc123" "/data"
                    (Scenario.start ∅) Scenario2.inspectedReadOnly eq_refl)))).
    + intros b Hb. simpl in Hb.
      apply list_elem_of_singleton in Hb. subst b.
      exists "/host/data", "ro". split; reflexivity.
    + intros m Hm. simpl in Hm. by apply elem_of_nil in Hm.
Defined.

(** A bind whose destination is the requested path but which carries an
    option is passed over: with the one bind [/host/data:/data:ro] and no
    mounts, [/data] is not found. *)
Lemma bind_destination_with_option_missed :
  Binds (HostConfig Scenario2.inspectedReadOnly) = ["/host/data:/data:ro"]
  ∧ Mounts Scenario2.inspectedReadOnly = []
  ∧ resultOf (hostMountPoint Scenario2.daemonReadOnly "abc123" "/data"
                (Scenario.start ∅))
    = inl (notFoundError "/data" "abc123").
Proof. vm_compute. done. Qed.


(** ** Running the monad, one call at a time *)

Lemma after_nil {A} (x : (error + A) * State * list event) : x = after [] x.
Proof. by destruct x as [[r s] ev]. Qed.

Lemma after_bind {A B} ev0 (m : M A) (f : A → M B) st :
  after ev0 ((m ≫= f) st)
  = match m st with
    | (inl e, s1, ev1) => (inl e, s1, ev0 ++ ev1)
    | (inr a, s1, ev1) => after (ev0 ++ ev1) (f a s1)
    end.
Proof.
  unfold mbind, M_bind, after. destruct (m st) as [[[e|a] s1] ev1]; [done|].
  destruct (f a s1) as [[r s2] ev2]. by rewrite app_assoc.
Qed.

Lemma bind_run {A B} (m : M A) (f : A → M B) st :
  (m ≫= f) st
  = match m st with
    | (inl e, s1, ev1) => (inl e, s1, ev1)
    | (inr a, s1, ev1) => after ev1 (f a s1)
    end.
Proof.
  unfold mbind, M_bind, after. destruct (m st) as [[[e|a] s1] ev1]; [done|].
  by destruct (f a s1) as [[r s2] ev2].
Qed.

Lemma M_bind_assoc {A B C} (m : M A) (f : A → M B) (g : B → M C) st :
  ((m ≫= f) ≫= g) st = (m ≫= (λ a, f a ≫= g)) st.
Proof.
  unfold mbind, M_bind. destruct (m st) as [[[e|a] s1] ev1]; [done|].
  destruct (f a s1) as [[[e|b] s2] ev2]; [done|].
  destruct (g b s2) as [[r s3] ev3]. by rewrite app_assoc.
Qed.

Lemma wrap_run {A} msg (m : M A) st :
  wrap msg m st
  = match m st with
    | (inl e, s1, ev1) => (inl (Wrap e msg), s1, ev1)
    | (inr a, s1, ev1) => (inr a, s1, ev1)
    end.
Proof. unfold wrap. by destruct (m st) as [[[e|a] s1] ev1]. Qed.

Lemma os_ReadFile_run p st :
  os.ReadFile p st = (FS.ReadFile (fs st) p, st, [EvReadFile p]).
Proof.
  unfold os.ReadFile, mbind, M_bind, emit, getFS, ofResult. simpl.
  by destruct (FS.ReadFile (fs st) p).
Qed.

Lemma os_Stat_run p st :
  os.Stat p st = (FS.Stat (fs st) p, st, [EvStat p]).
Proof.
  unfold os.Stat, mbind, M_bind, emit, getFS, ofResult. simpl.
  by destruct (FS.Stat (fs st) p).
Qed.

Lemma os_MkdirAll_run p st :
  os.MkdirAll p st
  = match FS.MkdirAll (fs st) p with
    | inl e => (inl e, st, [EvMkdirAll p])
    | inr f' => (inr (), mkState f' (environ st), [EvMkdirAll p])
    end.
Proof.
  unfold os.MkdirAll, mbind, M_bind, emit, getFS, putFS, ofResult. simpl.
  by destruct (FS.MkdirAll (fs st) p).
Qed.

Lemma os_WriteFile_run p d st :
  os.WriteFile p d st
  = match FS.WriteFile (fs st) p d with
    | inl e => (inl e, st, [EvWriteFile p d (Some e)])
    | inr f' => (inr (), mkState f' (environ st), [EvWriteFile p d None])
    end.
Proof.
  unfold os.WriteFile, mbind, M_bind, getFS. cbn.
  by destruct (FS.WriteFile (fs st) p d).
Qed.

Lemma os_RemoveAll_run p st :
  os.RemoveAll p st
  = (inr (), mkState (FS.RemoveAll (fs st) p) (environ st), [EvRemoveAll p]).
Proof. done. Qed.

Lemma write_run w data st :
  write w data st = (inr (written w data), st, writeEvents w data).
Proof. by destruct w. Qed.

Lemma copy_run w (s : stream) st :
  copy w s st = match s.2 with
                | Some e => (inl e, st, writeEvents w s.1)
                | None => (inr (written w s.1), st, writeEvents w s.1)
                end.
Proof.
  unfold copy, mbind, M_bind. rewrite write_run.
  destruct s as [d [e|]]; cbn; by rewrite app_nil_r.
Qed.

Lemma Command_run env e argv st :
  Command env e argv st
  = match err e with
    | Some _ => (inr e, st, [])
    | None =>
        match runCommand env (Dir e) argv (fs st) with
        | (f', output, failure) =>
            (inr {| Out := written (Out e) output; Dir := Dir e;
                    err := failure |},
             mkState f' (environ st),
             EvExec (Dir e) argv failure :: writeEvents (Out e) output)
        end
    end.
Proof.
  unfold Command. destruct (err e); [done|].
  unfold mbind, M_bind, getFS. cbn.
  destruct (runCommand env (Dir e) argv (fs st)) as [[f' output] failure].
  cbn. rewrite write_run. cbn. by rewrite app_nil_r.
Qed.

Lemma containerID_run st :
  ∃ r, containerID st = (r, st, [EvOpen "/proc/self/cgroup"]).
Proof.
  unfold containerID, mbind, M_bind, emit, getFS. cbn -[SplitN ReadString].
  destruct (fs st !! "/proc/self/cgroup") as [[contents|]|]; [|by eauto..].
  destruct (ReadString contents (byte 10)) as [line|]; [|by eauto].
  destruct (SplitN line "/"%char 3) as [|? [|? [|? [|? ?]]]]; by eauto.
Qed.

Lemma hostMountPoint_run cli id path st :
  ∃ r, hostMountPoint cli id path st = (r, st, [EvContainerInspect id]).
Proof.
  unfold hostMountPoint, mbind, M_bind, emit, wrap, ofResult. cbn.
  destruct (ContainerInspect cli id) as [e|c]; cbn; [by eauto|].
  destruct (scanBinds _ _); cbn; [by eauto|].
  destruct (scanMounts _ _); cbn; by eauto.
Qed.

Lemma readStatus_run sf st :
  readStatus sf st = (statusOf (FS.ReadFile (fs st) sf), st, [EvReadFile sf]).
Proof.
  unfold readStatus. unfold mbind, M_bind, attempt. rewrite os_ReadFile_run.
  destruct (FS.ReadFile (fs st) sf) as [e|bs]; simpl; [|done].
  by destruct (IsNotExist e).
Qed.

Lemma recoveryGate_run path newVersion l st :
  recoveryGate path newVersion l st
  = (inl interrupted, st,
     [EvLog interruptedNotice; EvLog retryNotice;
      EvLog (remediation path newVersion l)]).
Proof.
  unfold recoveryGate, remediation, mbind, M_bind, logPrint, emit, fail. cbn.
  by destruct (decide (oldVersion l = newVersion)).
Qed.

(** The texts of the gate, letter by letter. *)
Lemma notices_text :
  interruptedNotice
  = "✱ Sourcegraph was previously interrupted while upgrading its internal database."
  ∧ retryNotice
    = "✱ To try again, start the container after running these commands (safe):"
      +:+ nl.
Proof. split; reflexivity. Qed.

Lemma remediation_text path newVersion l :
  let hostPath := Filepath.Join [hostDataDir l; Filepath.Base path] in
  let hostUpgradeDir :=
    Filepath.Join
      [hostDataDir l;
       Filepath.Base
         (Filepath.Join
            [Filepath.Dir path;
             "." +:+ oldVersion l +:+ "-to-" +:+ newVersion +:+ "-upgrade"])] in
  remediation path newVersion l
  = if decide (oldVersion l = newVersion)
    then "$ mv " +:+ hostPath +:+ " " +:+ hostPath +:+ "-" +:+ newVersion
         +:+ ".bak" +:+ nl
         +:+ "$ mv " +:+ hostPath +:+ "-" +:+ oldVersion l +:+ " " +:+ hostPath
         +:+ nl
         +:+ "$ rm -rf " +:+ hostUpgradeDir
    else "$ mv " +:+ hostPath +:+ "-" +:+ newVersion +:+ " "
         +:+ hostPath +:+ "-" +:+ newVersion +:+ ".bak" +:+ nl
         +:+ "$ rm -rf " +:+ hostUpgradeDir.
Proof. reflexivity. Qed.

(** The four commands of the finalization, word by word. *)
Lemma finalizeEvents_text dir path oldVersion newVersion :
  finalizeEvents dir path oldVersion newVersion
  = [ EvExec dir ["mv"; path; path +:+ "-" +:+ oldVersion] None;
      EvExec dir ["mv"; path +:+ "-" +:+ newVersion; path] None;
      EvExec dir ["chown"; "-R"; "postgres"; path] None;
      EvExec dir ["su-exec"; "postgres"; "/postgres-optimize.sh"; path] None ].
Proof. reflexivity. Qed.

Lemma names_text path oldVersion newVersion :
  upgradeDirOf path oldVersion newVersion
  = Filepath.Join
      [Filepath.Dir path;
       "." +:+ oldVersion +:+ "-to-" +:+ newVersion +:+ "-upgrade"]
  ∧ statusFileOf path oldVersion newVersion
    = Filepath.Join
        [Filepath.Join
           [Filepath.Dir path;
            "." +:+ oldVersion +:+ "-to-" +:+ newVersion +:+ "-upgrade"];
         "status"].
Proof. split; reflexivity. Qed.

#[local] Opaque markerFileOf upgradeDirOf statusFileOf hostPathOf
  hostUpgradeDirOf TrimSpace String.append Filepath.Dir Filepath.Join
  SplitN ReadString pretty.

Ltac norm :=
  cbn [after app emit logPrint ofResult ofError fail mret M_ret fst snd
       getFS putFS fs environ Error err Out Dir Commands].

Ltac step_bind := rewrite after_bind; try rewrite wrap_run; norm.

Ltac run_command :=
  rewrite ?M_bind_assoc; rewrite after_bind, Command_run; norm;
  try match goal with
  | |- context [runCommand ?env ?d ?a ?f] =>
      let f' := fresh "f" in let o := fresh "o" in let x := fresh "x" in
      destruct (runCommand env d a f) as [[f' o] [x|]] eqn:?; norm
  end.

(** The walk through [runUpgrade]: one goal for each way it can go. *)
Ltac finalize_upgrade :=
  step_bind; step_bind;
  (destruct (ContainerLogs _ _) as [?e|[?data [?e|]]] eqn:?; norm);
  [ | step_bind; rewrite copy_run; norm
    | step_bind; rewrite copy_run; norm;
      unfold finalizeCommands; norm;
      run_command; run_command; run_command; run_command;
      step_bind;
      try (step_bind; cbn [written negb]; norm);
      try (rewrite wrap_run, os_WriteFile_run;
           (destruct (FS.WriteFile _ _ "done") as [?e|?f] eqn:?; norm)) ].

Ltac upgrade_body :=
  step_bind;
  step_bind; rewrite os_WriteFile_run;
  (destruct (FS.WriteFile _ _ "started") as [?e|?f] eqn:?; norm);
  [ |
  step_bind; step_bind;
  (destruct (ImagePull _ _) as [?e|[?data [?e|]]] eqn:?; norm);
  [ | step_bind; rewrite copy_run; norm |
  step_bind; rewrite copy_run; norm;
  step_bind; step_bind;
  (destruct (ContainerCreate _ _ _ _ _) as [?e|?respID] eqn:?; norm);
  [ |
  step_bind; step_bind;
  (destruct (ContainerStart _ _) as [?e|] eqn:?; norm);
  [ |
  step_bind; step_bind; step_bind; step_bind;
  (destruct (ContainerWait _ _) as [[?e|]|?code] eqn:?; norm);
  [ | finalize_upgrade | finalize_upgrade ] ]]]].

(** For a goal about [after ev (runUpgrade env path newVersion l st)]. *)
Ltac traverse_upgrade env :=
  unfold runUpgrade; cbn zeta;
  destruct (verbose env) eqn:?;
  (upgrade_body; cbn [after app writeEvents written]).

Lemma runUpgrade_errors env path newVersion l st e :
  resultOf (runUpgrade env path newVersion l st) = inl e →
  ∃ e' msg, e = Wrap e' msg.
Proof.
  rewrite (after_nil (runUpgrade env path newVersion l st)).
  traverse_upgrade env.
  all: try (intros [= <-]; by eauto).
  all: intros [=]; done.
Qed.

(** ** The file system model *)

Lemma WriteFile_inv f p d f' :
  FS.WriteFile f p d = inr f' → f' = <[p := File d]> f.
Proof.
  unfold FS.WriteFile. intros H.
  destruct (f !! p) as [[?|]|]; try done;
    destruct (FS.isDir f (Filepath.Dir p)); try (by injection H);
    by destruct (f !! Filepath.Dir p).
Qed.

Lemma WriteFile_ReadFile f p d f' :
  FS.WriteFile f p d = inr f' → FS.ReadFile f' p = inr d.
Proof.
  intros ->%WriteFile_inv. unfold FS.ReadFile. by rewrite lookup_insert_eq.
Qed.

Lemma mkdirs_keeps ps : ∀ f f' p n,
  FS.mkdirs f ps = inr f' → f !! p = Some n → f' !! p = Some n.
Proof.
  induction ps as [|q ps IH]; intros f f' p n; simpl.
  - by intros [= <-].
  - destruct (f !! q) as [[?|]|] eqn:Hq; [done|by apply IH|].
    intros Hmk Hp. apply (IH _ _ _ _ Hmk).
    rewrite lookup_insert_ne; [done|]. intros <-. congruence.
Qed.

Lemma mkdirs_adds ps : ∀ f f' p n,
  FS.mkdirs f ps = inr f' → f' !! p = Some n →
  f !! p = Some n ∨ (n = Directory ∧ p ∈ ps).
Proof.
  induction ps as [|q ps IH]; intros f f' p n; simpl.
  - intros [= <-]. by left.
  - destruct (f !! q) as [[?|]|] eqn:Hq; [done| |].
    + intros Hmk Hp. destruct (IH _ _ _ _ Hmk Hp) as [?|[? ?]]; [by left|].
      right. split; [done|]. by right.
    + intros Hmk Hp. destruct (IH _ _ _ _ Hmk Hp) as [Hin|[? ?]].
      * destruct (decide (q = p)) as [->|Hne].
        -- rewrite lookup_insert_eq in Hin. injection Hin as <-.
           right. split; [done|]. by left.
        -- rewrite lookup_insert_ne in Hin; [|done]. by left.
      * right. split; [done|]. by right.
Qed.

Lemma RemoveAll_under f p k : FS.under p k → FS.RemoveAll f p !! k = None.
Proof.
  intros Hk. unfold FS.RemoveAll. apply map_lookup_filter_None.
  right. intros n _ Hn. by apply Hn.
Qed.

Lemma RemoveAll_other f p k :
  ¬ FS.under p k → FS.RemoveAll f p !! k = f !! k.
Proof.
  intros Hk. unfold FS.RemoveAll.
  destruct (f !! k) as [n|] eqn:Hf.
  - apply map_lookup_filter_Some. done.
  - apply map_lookup_filter_None. by left.
Qed.

(** ** The run up to the recovery gate *)

(** Either the run comes to the gate, having done exactly the six things of
    [gateEvents], or it fails before with a wrapped error and without any
    action. *)
Lemma upgradeLocals_run env path newVersion st :
  (∃ l st1 id bs,
      upgradeLocals env path newVersion st
      = (inr l, st1, gateEvents path newVersion id (oldVersion l))
      ∧ FS.ReadFile (fs st) (markerFileOf path) = inr bs
      ∧ oldVersion l = TrimSpace bs
      ∧ NewClientWithOpts env = inr (cli l)
      ∧ FS.MkdirAll (fs st) (upgradeDirOf path (oldVersion l) newVersion)
        = inr (fs st1)
      ∧ environ st1 = environ st
      ∧ statusOf (FS.ReadFile (fs st1)
                    (statusFileOf path (oldVersion l) newVersion))
        = inr (status l))
  ∨ (∃ e msg st1 ev,
      upgradeLocals env path newVersion st = (inl (Wrap e msg), st1, ev)
      ∧ Forall (λ x, isAction x = false) ev
      ∧ environ st1 = environ st
      ∧ (fs st1 = fs st
         ∨ ∃ bs, FS.ReadFile (fs st) (markerFileOf path) = inr bs
                 ∧ FS.MkdirAll (fs st)
                     (upgradeDirOf path (TrimSpace bs) newVersion)
                   = inr (fs st1))).
Proof.
  rewrite (after_nil (upgradeLocals env path newVersion st)).
  unfold upgradeLocals.
  rewrite after_bind, wrap_run, os_ReadFile_run.
  destruct (FS.ReadFile (fs st) (markerFileOf path)) as [e|bs] eqn:Hbs.
  { right. eexists _, _, _, _. split; [reflexivity|]. repeat constructor. }
  rewrite after_bind, wrap_run.
  destruct (containerID_run st) as (r & ->). destruct r as [e|id].
  { right. eexists _, _, _, _. split; [reflexivity|]. repeat constructor. }
  rewrite after_bind. cbn [emit].
  rewrite after_bind, wrap_run.
  destruct (NewClientWithOpts env) as [e|c] eqn:Hcli; cbn [ofResult fail mret M_ret].
  { right. eexists _, _, _, _. split; [reflexivity|]. repeat constructor. }
  rewrite after_bind, wrap_run.
  destruct (hostMountPoint_run c id (Filepath.Dir path) st) as (r & ->).
  destruct r as [e|hdd].
  { right. eexists _, _, _, _. split; [reflexivity|]. repeat constructor. }
  cbn zeta.
  rewrite after_bind, wrap_run, os_MkdirAll_run.
  destruct (FS.MkdirAll (fs st) _) as [e|f'] eqn:Hmk.
  { right. eexists _, _, _, _. split; [reflexivity|]. repeat constructor. }
  rewrite after_bind, readStatus_run. cbn [fs].
  destruct (statusOf _) as [e|s] eqn:Hs.
  { right. unfold statusOf in Hs. repeat case_match; simplify_eq.
    eexists _, _, _, _. split; [reflexivity|]. split; [repeat constructor|].
    split; [done|]. right. eauto. }
  left.
  exists {| cli := c; oldVersion := TrimSpace bs; hostDataDir := hdd;
            status := s |}.
  eexists _, id, bs. cbn [mret M_ret after app]. split; [reflexivity|].
  cbn. done.
Qed.

(** What follows the gate is decided by the status and the versions. *)
Lemma maybeUpgradePostgres_run env path newVersion st :
  maybeUpgradePostgres env path newVersion st
  = match upgradeLocals env path newVersion st with
    | (inl e, st1, ev) => (inl e, st1, ev)
    | (inr l, st1, ev) =>
        after ev
          (if decide (status l = "started")
           then recoveryGate path newVersion l st1
           else if decide (oldVersion l = newVersion) then (inr (), st1, [])
           else runUpgrade env path newVersion l st1)
    end.
Proof.
  unfold maybeUpgradePostgres. rewrite bind_run.
  destruct (upgradeLocals env path newVersion st) as [[[e|l] st1] ev]; [done|].
  destruct (decide (status l = "started")); [done|].
  by destruct (decide (oldVersion l = newVersion)).
Qed.

(** Before the gate nothing is kept from the old file system but is
    unchanged, and only directories towards the upgrade directory are new. *)
Lemma upgradeLocals_fs env path newVersion st l st1 ev :
  upgradeLocals env path newVersion st = (inr l, st1, ev) →
  (∀ p n, fs st !! p = Some n → fs st1 !! p = Some n)
  ∧ (∀ p n, fs st1 !! p = Some n →
            fs st !! p = Some n
            ∨ (n = Directory
               ∧ p ∈ FS.prefixes (upgradeDirOf path (oldVersion l) newVersion))).
Proof.
  intros Hrun.
  destruct (upgradeLocals_run env path newVersion st)
    as [(l' & st1' & id & bs & Heq & _ & _ & _ & Hmk & _)
       |(e & msg & st1' & ev' & Heq & _)];
    rewrite Hrun in Heq; [|done].
  injection Heq as <- <- ->. unfold FS.MkdirAll in Hmk. split.
  - intros p n. by apply mkdirs_keeps with (1 := Hmk).
  - intros p n. by apply mkdirs_adds with (1 := Hmk).
Qed.

Lemma upgradeLocals_status env path newVersion st l st1 ev :
  upgradeLocals env path newVersion st = (inr l, st1, ev) →
  statusOf (FS.ReadFile (fs st1) (statusFileOf path (oldVersion l) newVersion))
  = inr (status l).
Proof.
  intros Hrun.
  destruct (upgradeLocals_run env path newVersion st)
    as [(l' & st1' & id & bs & Heq & _ & _ & _ & _ & _ & Hs)
       |(e & msg & st1' & ev' & Heq & _)];
    rewrite Hrun in Heq; [|done].
  by injection Heq as <- <- ->.
Qed.

Lemma gateEvents_no_action path newVersion id oldVersion :
  Forall (λ x, isAction x = false) (gateEvents path newVersion id oldVersion).
Proof. repeat constructor. Qed.

Lemma upgradeLocals_events env path newVersion st l st1 ev :
  upgradeLocals env path newVersion st = (inr l, st1, ev) →
  ∃ id, ev = gateEvents path newVersion id (oldVersion l).
Proof.
  intros Hrun.
  destruct (upgradeLocals_run env path newVersion st)
    as [(l' & st1' & id & bs & Heq & _)|(e & msg & st1' & ev' & Heq & _)];
    rewrite Hrun in Heq; [|done].
  injection Heq as <- <- ->. by exists id.
Qed.

Lemma upgradeLocals_marker env path newVersion st l st1 ev bs :
  upgradeLocals env path newVersion st = (inr l, st1, ev) →
  FS.ReadFile (fs st) (markerFileOf path) = inr bs →
  oldVersion l = TrimSpace bs.
Proof.
  intros Hrun Hbs.
  destruct (upgradeLocals_run env path newVersion st)
    as [(l' & st1' & id & bs' & Heq & Hbs' & Hold & _)
       |(e & msg & st1' & ev' & Heq & _)];
    rewrite Hrun in Heq; [|done].
  injection Heq as <- <- ->. congruence.
Qed.

(** ** The status ledger *)

(** C9. Ledger round trip: once [started] or [done] has been written to the
    status file, reading the ledger gives that value back; and with no
    status file, reading the ledger gives the empty status. *)
Theorem ledger_round_trip statusFile st :
  (∀ s st1 ev,
      s = "started" ∨ s = "done" →
      os.WriteFile statusFile s st = (inr (), st1, ev) →
      resultOf (readStatus statusFile st1) = inr s)
  ∧ (fs st !! statusFile = None →
     resultOf (readStatus statusFile st) = inr "").
Proof.
  split.
  - intros s st1 ev Hs Hw. rewrite os_WriteFile_run in Hw.
    destruct (FS.WriteFile (fs st) statusFile s) as [e|f'] eqn:Hf; [done|].
    injection Hw as <- <-. rewrite readStatus_run. cbn [resultOf fst fs].
    rewrite (WriteFile_ReadFile _ _ _ _ Hf). cbn [statusOf].
    by destruct Hs as [->| ->]; vm_compute.
  - intros Hnone. rewrite readStatus_run. cbn [resultOf fst].
    unfold FS.ReadFile. by rewrite Hnone.
Qed.

Lemma ledger_round_trip_witness :
  let sf := statusFileOf Scenario.path "9.6" "11" in
  let st := Scenario.start (Scenario.ledgerFS "9.6" "11" "") in
  resultOf (readStatus sf (stateOf (os.WriteFile sf "started" st))) = inr "started"
  ∧ resultOf (readStatus sf (stateOf (os.WriteFile sf "done" st))) = inr "done"
  ∧ resultOf (readStatus sf (Scenario.start (Scenario.dataFS "9.6"))) = inr "".
Proof.
  intros sf st. split; [|split].
  - apply (proj1 (ledger_round_trip sf st) "started" _
             (eventsOf (os.WriteFile sf "started" st))).
    + left. reflexivity.
    + vm_compute. reflexivity.
  - apply (proj1 (ledger_round_trip sf st) "done" _
             (eventsOf (os.WriteFile sf "done" st))).
    + right. reflexivity.
    + vm_compute. reflexivity.
  - apply (proj2 (ledger_round_trip sf (Scenario.start (Scenario.dataFS "9.6")))).
    vm_compute. reflexivity.
Defined.

(** C4, as the code has it.  In a run that comes to the gate, the status is
    empty when the status file is absent and otherwise the trimmed contents
    of the file, whatever they are.  Only [started] stops the run, with the
    interrupted-upgrade error; with any other status, known or not, the run
    goes on to compare the versions: success when they are equal, the
    upgrade when they differ. *)
Theorem ledger_status_not_validated env path newVersion st l st1 ev :
  upgradeLocals env path newVersion st = (inr l, st1, ev) →
  let sf := statusFileOf path (oldVersion l) newVersion in
  (fs st1 !! sf = None → status l = "")
  ∧ (∀ bs, fs st1 !! sf = Some (File bs) → status l = TrimSpace bs)
  ∧ (status l = "started" →
     resultOf (maybeUpgradePostgres env path newVersion st) = inl interrupted)
  ∧ (status l ≠ "started" →
     maybeUpgradePostgres env path newVersion st
     = after ev (if decide (oldVersion l = newVersion) then (inr (), st1, [])
                 else runUpgrade env path newVersion l st1)).
Proof.
  intros Hrun sf. pose proof (upgradeLocals_status _ _ _ _ _ _ _ Hrun) as Hs.
  fold sf in Hs. unfold FS.ReadFile in Hs.
  split; [|split; [|split]].
  - intros Hnone. rewrite Hnone in Hs. cbn in Hs. by injection Hs.
  - intros bs Hfile. rewrite Hfile in Hs. cbn in Hs. by injection Hs.
  - intros Hst. rewrite maybeUpgradePostgres_run, Hrun.
    rewrite decide_True by done. by rewrite recoveryGate_run.
  - intros Hst. rewrite maybeUpgradePostgres_run, Hrun.
    by rewrite decide_False by done.
Qed.

Lemma ledger_status_not_validated_witness :
  let st := Scenario.start (Scenario.ledgerFS "9.6" "9.6" "garbage") in
  maybeUpgradePostgres (Scenario.world (OnStatusCh 0)) Scenario.path "9.6" st
  = (inr (), st,
     gateEvents Scenario.path "9.6" "abc123" "9.6").
Proof.
  intros st.
  pose proof (ledger_status_not_validated
                (Scenario.world (OnStatusCh 0)) Scenario.path "9.6" st
                {| cli := Scenario.daemon (OnStatusCh 0); oldVersion := "9.6";
                   hostDataDir := "/host/data"; status := "garbage" |}
                st (gateEvents Scenario.path "9.6" "abc123" "9.6")) as H.
  cbn zeta in H.
  destruct H as (_ & _ & _ & H); [vm_compute; reflexivity|].
  rewrite H; [vm_compute; reflexivity|].
  cbn. discriminate.
Defined.

(** A status file that holds neither [started] nor [done] is accepted: the
    upgrade goes through and the file ends up holding [done]. *)
Lemma unknown_status_accepted :
  let st := Scenario.start (Scenario.ledgerFS "9.6" "11" ("garbage" +:+ nl)) in
  let sf := statusFileOf Scenario.path "9.6" "11" in
  let run := maybeUpgradePostgres (Scenario.world (OnStatusCh 0))
               Scenario.path "11" st in
  FS.ReadFile (fs st) sf = inr ("garbage" +:+ nl)
  ∧ resultOf (readStatus sf st) = inr "garbage"
  ∧ resultOf run = inr ()
  ∧ FS.ReadFile (fs (stateOf run)) sf = inr "done".
Proof. vm_compute. done. Qed.

(** ** The recovery gate *)

(** C1, as the code has it.  In every run in which the persisted ledger
    (the status file that belongs to the version named by the version
    marker) reads [started] after trimming: the routine does nothing to the
    helper image or container, writes no file, runs no command and removes
    nothing; every node of the file system is kept as it was, and the only
    new nodes are directories on the way to the upgrade directory.  The
    run fails: with the interrupted-upgrade error when it comes to read
    the ledger, and with the wrapped error of the step that failed when it
    does not get that far. *)
Theorem interrupted_upgrade_refused env path newVersion st marker bs :
  FS.ReadFile (fs st) (markerFileOf path) = inr marker →
  FS.ReadFile (fs st) (statusFileOf path (TrimSpace marker) newVersion)
  = inr bs →
  TrimSpace bs = "started" →
  let run := maybeUpgradePostgres env path newVersion st in
  (∀ l st1 ev,
      upgradeLocals env path newVersion st = (inr l, st1, ev) →
      resultOf run = inl interrupted)
  ∧ (∀ e st1 ev,
      upgradeLocals env path newVersion st = (inl e, st1, ev) →
      resultOf run = inl e ∧ ∃ e' msg, e = Wrap e' msg)
  ∧ Forall (λ e, isAction e = false) (eventsOf run)
  ∧ (∀ p n, fs st !! p = Some n → fs (stateOf run) !! p = Some n)
  ∧ (∀ p n, fs (stateOf run) !! p = Some n →
            fs st !! p = Some n
            ∨ (n = Directory
               ∧ p ∈ FS.prefixes
                       (upgradeDirOf path (TrimSpace marker) newVersion))).
Proof.
  intros Hmarker Hbs Htrim run. subst run. rewrite maybeUpgradePostgres_run.
  destruct (upgradeLocals_run env path newVersion st)
    as [(l & st1 & id & bs' & Heq & Hbs' & Hold & _ & Hmk & _ & Hstat)
       |(e & msg & st1 & ev & Heq & Hev & _ & Hfs)];
    rewrite Heq.
  - assert (bs' = marker) as -> by congruence.
    assert (status l = "started") as Hst.
    { rewrite Hold in Hstat. unfold FS.ReadFile in Hbs, Hstat.
      destruct (fs st !! statusFileOf path (TrimSpace marker) newVersion)
        as [[data|]|] eqn:Hfile; try done.
      injection Hbs as ->. rewrite Hold in Hmk. unfold FS.MkdirAll in Hmk.
      rewrite (mkdirs_keeps _ _ _ _ _ Hmk Hfile) in Hstat.
      cbn in Hstat. congruence. }
    rewrite decide_True by done. rewrite recoveryGate_run.
    cbn [after resultOf stateOf eventsOf fst snd].
    rewrite Hold in Hmk. unfold FS.MkdirAll in Hmk.
    split; [done|]. split; [intros e st1' ev' Habs; discriminate Habs|].
    split; [|split].
    + apply Forall_app. split; [apply gateEvents_no_action|repeat constructor].
    + intros p n. by apply mkdirs_keeps with (1 := Hmk).
    + intros p n. by apply mkdirs_adds with (1 := Hmk).
  - cbn [resultOf stateOf eventsOf fst snd].
    split; [intros l st1' ev' Habs; discriminate Habs|].
    split; [intros e' st1' ev' [= <- <- <-]; split; [done|by eexists _, _]|].
    split; [done|].
    destruct Hfs as [->|(bs0 & Hbs0 & Hmk)]; [split; intros p n; tauto|].
    assert (bs0 = marker) as -> by congruence.
    unfold FS.MkdirAll in Hmk. split.
    + intros p n. by apply mkdirs_keeps with (1 := Hmk).
    + intros p n. by apply mkdirs_adds with (1 := Hmk).
Qed.

Lemma interrupted_upgrade_refused_witness :
  let st := Scenario.start (Scenario.ledgerFS "9.6" "11" ("started" +:+ nl)) in
  let run := maybeUpgradePostgres (Scenario.world (OnStatusCh 0))
               Scenario.path "11" st in
  resultOf run = inl interrupted
  ∧ Forall (λ e, isAction e = false) (eventsOf run).
Proof.
  intros st run.
  destruct (interrupted_upgrade_refused
              (Scenario.world (OnStatusCh 0)) Scenario.path "11" st
              ("9.6" +:+ nl) ("started" +:+ nl)) as (H1 & _ & H3 & _).
  - vm_compute. reflexivity.
  - vm_compute. reflexivity.
  - vm_compute. reflexivity.
  - split; [|exact H3].
    apply (H1 {| cli := Scenario.daemon (OnStatusCh 0); oldVersion := "9.6";
                 hostDataDir := "/host/data"; status := "started" |}
              st (gateEvents Scenario.path "11" "abc123" "9.6")).
    vm_compute. reflexivity.
Defined.

(** The ledger reads [started], but the run is not in a container whose id
    it can find: it fails with the error of that step, not with the
    interrupted-upgrade error. *)
Lemma interrupted_upgrade_not_reported :
  let st := Scenario.start
              (delete "/proc/self/cgroup"
                 (Scenario.ledgerFS "9.6" "11" ("started" +:+ nl))) in
  let run := maybeUpgradePostgres (Scenario.world (OnStatusCh 0))
               Scenario.path "11" st in
  FS.ReadFile (fs st) (markerFileOf Scenario.path) = inr ("9.6" +:+ nl)
  ∧ FS.ReadFile (fs st) (statusFileOf Scenario.path "9.6" "11")
    = inr ("started" +:+ nl)
  ∧ TrimSpace ("started" +:+ nl) = "started"
  ∧ resultOf run
    = inl (Wrap (Wrap (ENOENT "/proc/self/cgroup")
                   "failed to read /proc/self/cgroup to determine container id")
             "failed to determine running container id")
  ∧ resultOf run ≠ inl interrupted.
Proof. vm_compute. done. Qed.

(** The same from the side of the disk: when the status file that belongs
    to the version marker holds [started], no run acts at all, and every
    run fails: with the interrupted-upgrade error when it comes to the
    gate, with the error of an earlier step otherwise. *)
Lemma persisted_started_never_acts env path newVersion st marker bs :
  FS.ReadFile (fs st) (markerFileOf path) = inr marker →
  FS.ReadFile (fs st) (statusFileOf path (TrimSpace marker) newVersion)
  = inr bs →
  TrimSpace bs = "started" →
  let run := maybeUpgradePostgres env path newVersion st in
  Forall (λ e, isAction e = false) (eventsOf run)
  ∧ (resultOf run = inl interrupted
     ∨ ∃ e msg, resultOf run = inl (Wrap e msg)).
Proof.
  intros Hmarker Hbs Htrim run. subst run. rewrite maybeUpgradePostgres_run.
  destruct (upgradeLocals_run env path newVersion st)
    as [(l & st1 & id & bs' & Heq & Hbs' & Hold & _ & Hmk & _ & Hstat)
       |(e & msg & st1 & ev & Heq & Hev & _)];
    rewrite Heq; [|split; [done|right; by eexists _, _]].
  assert (bs' = marker) as -> by congruence.
  assert (status l = "started") as Hst.
  { rewrite Hold in Hstat. unfold FS.ReadFile in Hbs, Hstat.
    destruct (fs st !! statusFileOf path (TrimSpace marker) newVersion)
      as [[data|]|] eqn:Hfile; try done.
    injection Hbs as ->. rewrite Hold in Hmk. unfold FS.MkdirAll in Hmk.
    rewrite (mkdirs_keeps _ _ _ _ _ Hmk Hfile) in Hstat.
    cbn in Hstat. congruence. }
  rewrite decide_True by done. rewrite recoveryGate_run.
  cbn [after resultOf eventsOf fst snd]. split; [|by left].
  apply Forall_app. split; [apply gateEvents_no_action|repeat constructor].
Qed.

(** C8. When the routine fails with the interrupted-upgrade error, it has
    come to the gate with the status [started], and all it has done since
    is to log three messages: the two notices and one of two sequences of
    shell commands, the one with two [mv] and an [rm -rf] when the old and
    the new version are equal and the one with one [mv] and an [rm -rf]
    when they differ.  The state is the one the gate was reached in, and
    no command has been run. *)
Theorem remediation_only_printed env path newVersion st :
  let run := maybeUpgradePostgres env path newVersion st in
  resultOf run = inl interrupted →
  ∃ l st1 ev,
    upgradeLocals env path newVersion st = (inr l, st1, ev)
    ∧ status l = "started"
    ∧ stateOf run = st1
    ∧ (let hostPath := Filepath.Join [hostDataDir l; Filepath.Base path] in
       let hostUpgradeDir :=
         Filepath.Join
           [hostDataDir l;
            Filepath.Base
              (Filepath.Join
                 [Filepath.Dir path;
                  "." +:+ oldVersion l +:+ "-to-" +:+ newVersion
                  +:+ "-upgrade"])] in
       eventsOf run
       = ev ++ [EvLog "✱ Sourcegraph was previously interrupted while upgrading its internal database.";
                EvLog ("✱ To try again, start the container after running these commands (safe):"
                       +:+ nl);
                EvLog (if decide (oldVersion l = newVersion)
                       then "$ mv " +:+ hostPath +:+ " " +:+ hostPath +:+ "-"
                            +:+ newVersion +:+ ".bak" +:+ nl
                            +:+ "$ mv " +:+ hostPath +:+ "-" +:+ oldVersion l
                            +:+ " " +:+ hostPath +:+ nl
                            +:+ "$ rm -rf " +:+ hostUpgradeDir
                       else "$ mv " +:+ hostPath +:+ "-" +:+ newVersion +:+ " "
                            +:+ hostPath +:+ "-" +:+ newVersion +:+ ".bak"
                            +:+ nl
                            +:+ "$ rm -rf " +:+ hostUpgradeDir)])
    ∧ Forall (λ e, isAction e = false) (eventsOf run).
Proof.
  intros run. subst run. rewrite maybeUpgradePostgres_run.
  destruct (upgradeLocals_run env path newVersion st)
    as [(l & st1 & id & bs & Heq & _)|(e & msg & st1 & ev & Heq & _)];
    rewrite Heq; [|done].
  destruct (decide (status l = "started")) as [Hst|Hst].
  - rewrite recoveryGate_run. cbn [after resultOf stateOf eventsOf fst snd].
    intros _. eexists l, st1, _. split; [reflexivity|].
    split; [done|]. split; [done|]. split.
    + cbn zeta. rewrite (remediation_text path newVersion l).
      destruct notices_text as [-> ->]. reflexivity.
    + apply Forall_app. split; [apply gateEvents_no_action|repeat constructor].
  - destruct (decide (oldVersion l = newVersion)); [done|].
    destruct (runUpgrade env path newVersion l st1) as [[r st2] ev2] eqn:Hup.
    cbn [after resultOf fst]. intros ->.
    destruct (runUpgrade_errors env path newVersion l st1 interrupted)
      as (e' & msg & Habs); [by rewrite Hup|done].
Qed.

(** Both texts: an upgrade from 9.6 to 11 that was interrupted, and an
    interrupted upgrade found once the data directory holds version 11. *)
Lemma remediation_only_printed_witness :
  let env := Scenario.world (OnStatusCh 0) in
  last (eventsOf (maybeUpgradePostgres env Scenario.path "11"
                    (Scenario.start
                       (Scenario.ledgerFS "9.6" "11" ("started" +:+ nl)))))
  = Some (EvLog ("$ mv /host/data/postgresql-11 /host/data/postgresql-11.bak"
                 +:+ nl +:+ "$ rm -rf /host/data/.9.6-to-11-upgrade"))
  ∧ last (eventsOf (maybeUpgradePostgres env Scenario.path "11"
                      (Scenario.start
                         (Scenario.ledgerFS "11" "11" ("started" +:+ nl)))))
    = Some (EvLog ("$ mv /host/data/postgresql /host/data/postgresql-11.bak"
                   +:+ nl
                   +:+ "$ mv /host/data/postgresql-11 /host/data/postgresql"
                   +:+ nl +:+ "$ rm -rf /host/data/.11-to-11-upgrade")).
Proof.
  intros env. split.
  - pose (st := Scenario.start
                  (Scenario.ledgerFS "9.6" "11" ("started" +:+ nl))).
    assert (upgradeLocals env Scenario.path "11" st
            = (inr {| cli := Scenario.daemon (OnStatusCh 0);
                      oldVersion := "9.6"; hostDataDir := "/host/data";
                      status := "started" |},
               st, gateEvents Scenario.path "11" "abc123" "9.6")) as Hl
      by (vm_compute; reflexivity).
    destruct (remediation_only_printed env Scenario.path "11" st)
      as (l & st1 & ev & Heq & _ & _ & Hev & _); [vm_compute; reflexivity|].
    rewrite Hl in Heq. injection Heq as <- <- <-.
    cbn zeta in Hev. fold st. rewrite Hev. vm_compute. reflexivity.
  - pose (st := Scenario.start
                  (Scenario.ledgerFS "11" "11" ("started" +:+ nl))).
    assert (upgradeLocals env Scenario.path "11" st
            = (inr {| cli := Scenario.daemon (OnStatusCh 0);
                      oldVersion := "11"; hostDataDir := "/host/data";
                      status := "started" |},
               st, gateEvents Scenario.path "11" "abc123" "11")) as Hl
      by (vm_compute; reflexivity).
    destruct (remediation_only_printed env Scenario.path "11" st)
      as (l & st1 & ev & Heq & _ & _ & Hev & _); [vm_compute; reflexivity|].
    rewrite Hl in Heq. injection Heq as <- <- <-.
    cbn zeta in Hev. fold st. rewrite Hev. vm_compute. reflexivity.
Defined.

(** ** Equal versions *)

(** C5, as the code has it.  When the trimmed version marker equals the
    expected version, no run writes a file, runs a command, removes
    anything or pulls, creates or starts a helper container; and a run
    that comes to the gate and finds a status other than [started]
    returns success in the state the gate was reached in. *)
Theorem equal_versions_no_upgrade env path newVersion st bs :
  FS.ReadFile (fs st) (markerFileOf path) = inr bs →
  TrimSpace bs = newVersion →
  let run := maybeUpgradePostgres env path newVersion st in
  Forall (λ e, isAction e = false) (eventsOf run)
  ∧ (∀ l st1 ev,
        upgradeLocals env path newVersion st = (inr l, st1, ev) →
        status l ≠ "started" →
        run = (inr (), st1, ev)).
Proof.
  intros Hbs Htrim run. subst run. rewrite maybeUpgradePostgres_run.
  destruct (upgradeLocals_run env path newVersion st)
    as [(l & st1 & id & bs' & Heq & Hbs' & Hold & _)
       |(e & msg & st1 & ev & Heq & Hev & _)];
    rewrite Heq; [|by split].
  assert (oldVersion l = newVersion) as Hsame by congruence.
  destruct (decide (status l = "started")) as [Hst|Hst].
  - rewrite recoveryGate_run. cbn [after eventsOf snd]. split.
    + apply Forall_app. split; [apply gateEvents_no_action|repeat constructor].
    + intros l' st1' ev' [= <- <- <-]. done.
  - rewrite decide_True by done. cbn [after eventsOf snd]. split.
    + rewrite app_nil_r. apply gateEvents_no_action.
    + intros l' st1' ev' [= <- <- <-] _. by rewrite app_nil_r.
Qed.

Lemma equal_versions_no_upgrade_witness :
  let st := Scenario.start (Scenario.dataFS "9.6") in
  maybeUpgradePostgres (Scenario.world (OnStatusCh 0)) Scenario.path "9.6" st
  = (inr (),
     mkState (<["/data/.9.6-to-9.6-upgrade" := Directory]> (fs st)) (environ st),
     gateEvents Scenario.path "9.6" "abc123" "9.6").
Proof.
  intros st.
  apply (proj2 (equal_versions_no_upgrade
                  (Scenario.world (OnStatusCh 0)) Scenario.path "9.6" st
                  ("9.6" +:+ nl) eq_refl eq_refl)
           {| cli := Scenario.daemon (OnStatusCh 0); oldVersion := "9.6";
              hostDataDir := "/host/data"; status := "" |}).
  - vm_compute. reflexivity.
  - discriminate.
Defined.

(** With the version marker equal to the expected version and no status
    ledger at all, the routine still fails when it does not run in a
    container whose id it can find. *)
Lemma equal_versions_may_fail :
  let st := Scenario.start (Scenario.bareFS "9.6") in
  let run := maybeUpgradePostgres (Scenario.world (OnStatusCh 0))
               Scenario.path "9.6" st in
  FS.ReadFile (fs st) (markerFileOf Scenario.path) = inr ("9.6" +:+ nl)
  ∧ TrimSpace ("9.6" +:+ nl) = "9.6"
  ∧ fs st !! statusFileOf Scenario.path "9.6" "9.6" = None
  ∧ resultOf run
    = inl (Wrap (Wrap (ENOENT "/proc/self/cgroup")
                   "failed to read /proc/self/cgroup to determine container id")
             "failed to determine running container id")
  ∧ resultOf run ≠ inr ().
Proof. vm_compute. done. Qed.

(** ** The place of the gate in a run *)

(** C6, as the code has it.  Whenever a run writes a file, runs a command,
    removes something or acts on the helper image or container, it has
    come to the gate before: its first six events are the read of the
    version marker, the look-up of the container id, the Docker client, the
    inspection of the container, the creation of the upgrade directory and
    the read of the status file, in this order. *)
Theorem gate_precedes_actions env path newVersion st j e :
  let run := maybeUpgradePostgres env path newVersion st in
  eventsOf run !! j = Some e →
  isAction e = true →
  ∃ l st1 id,
    upgradeLocals env path newVersion st
    = (inr l, st1, gateEvents path newVersion id (oldVersion l))
    ∧ take 6 (eventsOf run) = gateEvents path newVersion id (oldVersion l)
    ∧ 6 ≤ j.
Proof.
  intros run. subst run. rewrite maybeUpgradePostgres_run.
  destruct (upgradeLocals_run env path newVersion st)
    as [(l & st1 & id & bs & Heq & _)|(e' & msg & st1 & ev & Heq & Hev & _)];
    rewrite Heq.
  - intros Hj He. exists l, st1, id. split; [done|].
    destruct (if decide (status l = "started") then _ else _)
      as [[r st2] ev2].
    cbn [after eventsOf snd] in *. split; [done|].
    destruct (decide (6 ≤ j)) as [|Hlt]; [done|]. exfalso.
    do 6 (destruct j as [|j]; [cbn in Hj; by injection Hj as <-|]). lia.
  - cbn [eventsOf snd]. intros Hj He. exfalso.
    rewrite Forall_lookup in Hev. specialize (Hev _ _ Hj). cbn in Hev.
    congruence.
Qed.

Lemma gate_precedes_actions_witness :
  let st := Scenario.start (Scenario.dataFS "9.6") in
  let run := maybeUpgradePostgres (Scenario.world (OnStatusCh 0))
               Scenario.path "11" st in
  ∃ l st1 id,
    upgradeLocals (Scenario.world (OnStatusCh 0)) Scenario.path "11" st
    = (inr l, st1, gateEvents Scenario.path "11" id (oldVersion l))
    ∧ take 6 (eventsOf run) = gateEvents Scenario.path "11" id (oldVersion l)
    ∧ 6 ≤ 7.
Proof.
  intros st run.
  apply (gate_precedes_actions
           (Scenario.world (OnStatusCh 0)) Scenario.path "11" st 7
           (EvWriteFile (statusFileOf Scenario.path "9.6" "11") "started" None)).
  - vm_compute. reflexivity.
  - reflexivity.
Defined.

(** In an ordinary run the version marker is read, and the upgrade
    directory created, before the status file is read: the gate is not
    consulted first. *)
Lemma gate_not_first :
  let st := Scenario.start (Scenario.dataFS "9.6") in
  let run := maybeUpgradePostgres (Scenario.world (OnStatusCh 0))
               Scenario.path "11" st in
  eventsOf run !! 0 = Some (EvReadFile (markerFileOf Scenario.path))
  ∧ eventsOf run !! 4 = Some (EvMkdirAll (upgradeDirOf Scenario.path "9.6" "11"))
  ∧ eventsOf run !! 5 = Some (EvReadFile (statusFileOf Scenario.path "9.6" "11"))
  ∧ fs st !! upgradeDirOf Scenario.path "9.6" "11" = None
  ∧ ¬ specGateFirst Scenario.path "11" "9.6" (eventsOf run).
Proof.
  intros st run.
  assert (eventsOf run !! 0 = Some (EvReadFile (markerFileOf Scenario.path)))
    as H0 by (vm_compute; reflexivity).
  split; [exact H0|].
  split; [vm_compute; reflexivity|].
  split; [vm_compute; reflexivity|].
  split; [vm_compute; reflexivity|].
  intros (i & Hi & Hfirst).
  specialize (Hfirst 0 _ H0 (or_introl eq_refl)). lia.
Qed.

(** ** Every way a run can go *)

(** The walk through [maybeUpgradePostgres]: the failures before the gate
    (one goal, events known to hold no action), the gate, the no-op, and
    each way through [runUpgrade], with the events of the run spelled out. *)
Ltac traverse_run env path newVersion st :=
  rewrite maybeUpgradePostgres_run;
  destruct (upgradeLocals_run env path newVersion st)
    as [(l & st1 & id & bs & Heq & Hbs & Hold & Hcli & Hmk & Henv & Hstat)
       |(e0 & msg & st1 & ev & Heq & Hev & _)];
  rewrite Heq;
  [ unfold gateEvents;
    destruct (decide (status l = "started")) as [Hst|Hst];
    [ rewrite recoveryGate_run; cbn [after app]
    | destruct (decide (oldVersion l = newVersion)) as [Hsame|Hdiff];
      [ cbn [after app] | traverse_upgrade env ] ]
  | ].

(** Look at the events of a spelled-out run one index at a time. *)
Ltac each_index j Hj tac :=
  repeat match type of Hj with
         | (_ :: _) !! _ = _ =>
             destruct j as [|j];
             [ cbn in Hj; first [ discriminate Hj | tac ] | cbn in Hj ]
         end;
  try discriminate Hj.

Lemma started_before_data env path newVersion st j e :
  let run := maybeUpgradePostgres env path newVersion st in
  eventsOf run !! j = Some e →
  touchesData e = true →
  ∃ i l st1 ev0,
    upgradeLocals env path newVersion st = (inr l, st1, ev0)
    ∧ i < j
    ∧ eventsOf run !! i
      = Some (EvWriteFile (statusFileOf path (oldVersion l) newVersion)
                "started" None).
Proof.
  intros run. subst run. traverse_run env path newVersion st.
  all: cbn [eventsOf snd]; intros Hj He.
  all: try (exfalso; rewrite Forall_lookup in Hev; specialize (Hev _ _ Hj);
            cbn in Hev; unfold touchesData in He;
            destruct e; cbn in Hev, He; congruence).
  all: each_index j Hj
         ltac:(injection Hj as <-;
               first [ discriminate He
                     | by (exists 7; eexists l, st1, _;
                           split; [reflexivity|]; split; [lia|reflexivity]) ]).
Qed.

Lemma done_after_finalize env path newVersion st j p d :
  let run := maybeUpgradePostgres env path newVersion st in
  eventsOf run !! j = Some (EvWriteFile p "done" d) →
  ∃ l st1 ev0,
    upgradeLocals env path newVersion st = (inr l, st1, ev0)
    ∧ p = statusFileOf path (oldVersion l) newVersion
    ∧ filter isExec (take j (eventsOf run))
      = finalizeEvents (upgradeDirOf path (oldVersion l) newVersion) path
          (oldVersion l) newVersion.
Proof.
  intros run. subst run. traverse_run env path newVersion st.
  all: cbn [eventsOf snd]; intros Hj.
  all: try (exfalso; rewrite Forall_lookup in Hev; specialize (Hev _ _ Hj);
            cbn in Hev; congruence).
  all: each_index j Hj
         ltac:(injection Hj as <- <-; eexists l, st1, _;
               split; [reflexivity|]; split; reflexivity).
Qed.

Lemma success_leaves_done env path newVersion st :
  let run := maybeUpgradePostgres env path newVersion st in
  resultOf run = inr () →
  ∃ l st1 ev0,
    upgradeLocals env path newVersion st = (inr l, st1, ev0)
    ∧ status l ≠ "started"
    ∧ statusOf (FS.ReadFile (fs (stateOf run))
                  (statusFileOf path (oldVersion l) newVersion))
      ≠ inr "started"
    ∧ (oldVersion l ≠ newVersion →
       FS.ReadFile (fs (stateOf run))
         (statusFileOf path (oldVersion l) newVersion) = inr "done"
       ∧ last (eventsOf run)
         = Some (EvWriteFile (statusFileOf path (oldVersion l) newVersion)
                   "done" None)).
Proof.
  intros run. subst run. traverse_run env path newVersion st.
  all: cbn [resultOf stateOf eventsOf fst snd fs]; intros Hres;
       try discriminate Hres.
  all: eexists l, st1, _; (split; [reflexivity|]); (split; [done|]).
  1: { (* equal versions: nothing is done *)
       split; [|done]. rewrite Hstat. congruence. }
  all: match goal with
       | H : FS.WriteFile _ _ "done" = inr _ |- _ =>
           rewrite (WriteFile_ReadFile _ _ _ _ H)
       end.
  all: split; [by vm_compute|]; intros _; split; reflexivity.
Qed.

(** ** The ledger around the upgrade *)

(** C3. Along every run: whatever acts on the data directory (a command, a
    removal, the helper image or container) comes strictly after a
    successful write of [started] to the status file; a write of [done]
    comes only when the commands run so far are exactly the four of the
    finalization, each successful: the rename of the data directory to the
    name with the old version, the rename of the new data directory to the
    path, the change of owner and the optimization script; and a run that
    returns success leaves a ledger that does not read [started]: it has
    written [done] as its last act when the versions differ, and has found
    and left a status other than [started] when they are equal. *)
Theorem ledger_brackets_upgrade env path newVersion st :
  let run := maybeUpgradePostgres env path newVersion st in
  (∀ j e,
      eventsOf run !! j = Some e →
      touchesData e = true →
      ∃ i l st1 ev0,
        upgradeLocals env path newVersion st = (inr l, st1, ev0)
        ∧ i < j
        ∧ eventsOf run !! i
          = Some (EvWriteFile (statusFileOf path (oldVersion l) newVersion)
                    "started" None))
  ∧ (∀ j p d,
      eventsOf run !! j = Some (EvWriteFile p "done" d) →
      ∃ l st1 ev0,
        upgradeLocals env path newVersion st = (inr l, st1, ev0)
        ∧ (let dir :=
             Filepath.Join
               [Filepath.Dir path;
                "." +:+ oldVersion l +:+ "-to-" +:+ newVersion
                +:+ "-upgrade"] in
           p = Filepath.Join [dir; "status"]
           ∧ filter isExec (take j (eventsOf run))
             = [ EvExec dir ["mv"; path; path +:+ "-" +:+ oldVersion l] None;
                 EvExec dir ["mv"; path +:+ "-" +:+ newVersion; path] None;
                 EvExec dir ["chown"; "-R"; "postgres"; path] None;
                 EvExec dir ["su-exec"; "postgres"; "/postgres-optimize.sh";
                             path] None ]))
  ∧ (resultOf run = inr () →
     ∃ l st1 ev0,
       upgradeLocals env path newVersion st = (inr l, st1, ev0)
       ∧ status l ≠ "started"
       ∧ statusOf (FS.ReadFile (fs (stateOf run))
                     (statusFileOf path (oldVersion l) newVersion))
         ≠ inr "started"
       ∧ (oldVersion l ≠ newVersion →
          FS.ReadFile (fs (stateOf run))
            (statusFileOf path (oldVersion l) newVersion) = inr "done"
          ∧ last (eventsOf run)
            = Some (EvWriteFile (statusFileOf path (oldVersion l) newVersion)
                      "done" None))).
Proof.
  intros run. split; [|split].
  - intros j e. apply started_before_data.
  - intros j p d Hj.
    destruct (done_after_finalize env path newVersion st j p d Hj)
      as (l & st1 & ev0 & Heq & Hp & Hcmds).
    exists l, st1, ev0. split; [exact Heq|]. cbn zeta.
    destruct (names_text path (oldVersion l) newVersion) as [Hdir Hfile].
    rewrite <- Hfile, <- Hdir. split; [exact Hp|].
    etransitivity; [exact Hcmds|apply finalizeEvents_text].
  - apply success_leaves_done.
Qed.

Lemma ledger_brackets_upgrade_witness :
  let env := Scenario.world (OnStatusCh 0) in
  let st := Scenario.start (Scenario.dataFS "9.6") in
  let run := maybeUpgradePostgres env Scenario.path "11" st in
  ∃ l st1 ev0,
    upgradeLocals env Scenario.path "11" st = (inr l, st1, ev0)
    ∧ status l ≠ "started"
    ∧ statusOf (FS.ReadFile (fs (stateOf run))
                  (statusFileOf Scenario.path (oldVersion l) "11"))
      ≠ inr "started"
    ∧ (oldVersion l ≠ "11" →
       FS.ReadFile (fs (stateOf run))
         (statusFileOf Scenario.path (oldVersion l) "11") = inr "done"
       ∧ last (eventsOf run)
         = Some (EvWriteFile (statusFileOf Scenario.path (oldVersion l) "11")
                   "done" None)).
Proof.
  intros env st run.
  apply (proj2 (proj2 (ledger_brackets_upgrade env Scenario.path "11" st))).
  vm_compute. reflexivity.
Defined.

(** ** The wait for the helper container *)

Ltac split_elem H :=
  repeat match type of H with
         | _ ∈ _ :: _ =>
             apply elem_of_cons in H as [H|H];
             [ first [ discriminate H | injection H as -> ] | ]
         end;
  try (by apply elem_of_nil in H).

Ltac find_elem :=
  repeat first [ apply list_elem_of_here | apply list_elem_of_further ].

(** C2, as the code has it.  When the wait for the helper container ends
    with an error on the error channel, the routine fails with that error
    wrapped as "failed to upgrade postgres"; it has run no command (the
    data directory is not renamed) and has not asked for the container's
    logs; its one write is that of [started] to the status file, and the
    file system it leaves is the one the helper container left, so that the
    ledger still reads [started] when the helper did not touch the status
    file.  When the wait delivers an exit status, whatever it is, the
    routine goes on: it asks for the container's logs, and when these can
    be read it runs the first command of the finalization, the rename of
    the data directory. *)
Theorem wait_error_aborts env path newVersion st c cid :
  let run := maybeUpgradePostgres env path newVersion st in
  NewClientWithOpts env = inr c →
  EvContainerWait cid ∈ eventsOf run →
  (∀ e,
     ContainerWait c cid = OnErrCh (Some e) →
     resultOf run = inl (Wrap e "failed to upgrade postgres")
     ∧ Forall (λ x, isExec x = false ∧ x ≠ EvContainerLogs cid) (eventsOf run)
     ∧ ∃ l st1 ev0 f1,
         upgradeLocals env path newVersion st = (inr l, st1, ev0)
         ∧ filter isWrite (eventsOf run)
           = [EvWriteFile (statusFileOf path (oldVersion l) newVersion)
                "started" None]
         ∧ FS.WriteFile (fs st1) (statusFileOf path (oldVersion l) newVersion)
             "started" = inr f1
         ∧ fs (stateOf run) = helperRun c cid f1
         ∧ (helperRun c cid f1 !! statusFileOf path (oldVersion l) newVersion
            = f1 !! statusFileOf path (oldVersion l) newVersion →
            resultOf (readStatus (statusFileOf path (oldVersion l) newVersion)
                        (stateOf run)) = inr "started"))
  ∧ (∀ n,
       ContainerWait c cid = OnStatusCh n →
       EvContainerLogs cid ∈ eventsOf run
       ∧ (∀ out,
            ContainerLogs c cid = inr (out, None) →
            ∃ l st1 ev0 failure,
              upgradeLocals env path newVersion st = (inr l, st1, ev0)
              ∧ EvExec
                  (Filepath.Join
                     [Filepath.Dir path;
                      "." +:+ oldVersion l +:+ "-to-" +:+ newVersion
                      +:+ "-upgrade"])
                  ["mv"; path; path +:+ "-" +:+ oldVersion l] failure
                ∈ eventsOf run)).
Proof.
  intros run. subst run. traverse_run env path newVersion st.
  all: cbn [resultOf stateOf eventsOf fst snd fs]; intros Hc Hin.
  all: try (exfalso; rewrite Forall_forall in Hev; specialize (Hev _ Hin);
            cbn in Hev; discriminate Hev).
  all: split_elem Hin.
  all: assert (c = cli l) as -> by congruence.
  all: split; [intros e' Hwait|intros n Hwait].
  all: match goal with
       | H : ContainerWait (cli _) _ = _ |- _ =>
           rewrite Hwait in H; first [ discriminate H | injection H as <- ]
       end.
  (* the status channel *)
  all: try (split; [find_elem|];
            match goal with
            | H : ContainerLogs (cli _) _ = _ |- _ =>
                intros out Hlogs; rewrite Hlogs in H;
                first [ discriminate H | clear H ]
            end;
            eexists l, st1, _, _; (split; [reflexivity|]);
            rewrite <- (proj1 (names_text path (oldVersion l) newVersion));
            find_elem; fail).
  (* the error channel *)
  all: split; [reflexivity|].
  all: split;
    [ repeat (constructor; [split; [reflexivity|intros Hx; discriminate Hx]|]);
      constructor | ].
  all: eexists l, st1, _, _; split; [reflexivity|]; split; [reflexivity|].
  all: split; [eassumption|]; split; [reflexivity|].
  all: intros Hkept; rewrite readStatus_run; cbn [resultOf fst fs];
       unfold FS.ReadFile; rewrite Hkept.
  all: match goal with
       | H : FS.WriteFile _ _ "started" = inr _ |- _ =>
           apply WriteFile_inv in H; rewrite H
       end.
  all: rewrite lookup_insert_eq; by vm_compute.
Qed.

Lemma wait_error_aborts_witness :
  let w := OnErrCh (Some (External "daemon gone")) in
  let st := Scenario.start (Scenario.dataFS "9.6") in
  let failed := maybeUpgradePostgres (Scenario.world w) Scenario.path "11" st in
  let exited := maybeUpgradePostgres (Scenario.world (OnStatusCh 1))
                  Scenario.path "11" st in
  (resultOf failed
   = inl (Wrap (External "daemon gone") "failed to upgrade postgres")
   ∧ Forall (λ x, isExec x = false ∧ x ≠ EvContainerLogs "c1")
       (eventsOf failed))
  ∧ EvContainerLogs "c1" ∈ eventsOf exited.
Proof.
  intros w st failed exited. split.
  - destruct (wait_error_aborts (Scenario.world w) Scenario.path "11" st
                (Scenario.daemon w) "c1") as [H _].
    + reflexivity.
    + apply (list_elem_of_lookup_2 _ 11). vm_compute. reflexivity.
    + destruct (H (External "daemon gone") eq_refl) as (H1 & H2 & _).
      split; [exact H1 | exact H2].
  - destruct (wait_error_aborts (Scenario.world (OnStatusCh 1)) Scenario.path
                "11" st (Scenario.daemon (OnStatusCh 1)) "c1") as [_ H].
    + reflexivity.
    + apply (list_elem_of_lookup_2 _ 11). vm_compute. reflexivity.
    + exact (proj1 (H 1%Z eq_refl)).
Defined.

(** A non-zero exit status of the helper container is not looked at: the
    routine goes on to fetch the logs, renames the data directory, writes
    [done] and returns success. *)
Lemma nonzero_exit_status_ignored :
  let env := Scenario.world (OnStatusCh 1) in
  let st := Scenario.start (Scenario.dataFS "9.6") in
  let run := maybeUpgradePostgres env Scenario.path "11" st in
  ContainerWait (Scenario.daemon (OnStatusCh 1)) "c1" = OnStatusCh 1
  ∧ eventsOf run !! 11 = Some (EvContainerWait "c1")
  ∧ resultOf run = inr ()
  ∧ eventsOf run !! 13
    = Some (EvExec (upgradeDirOf Scenario.path "9.6" "11")
              ["mv"; "/data/postgresql"; "/data/postgresql-9.6"] None)
  ∧ fs (stateOf run) !! "/data/postgresql-9.6" = Some Directory
  ∧ FS.ReadFile (fs (stateOf run)) (statusFileOf Scenario.path "9.6" "11")
    = inr "done".
Proof. vm_compute. done. Qed.

(** ** The first initialization of the data directory *)

Lemma Getenv_run key st :
  os.Getenv key st = (inr (default "" (environ st !! key)), st, []).
Proof. done. Qed.

Lemma Commands_total env cmds : ∀ e st,
  ∃ e' st' ev,
    Commands env e cmds st = (inr e', st', ev) ∧ environ st' = environ st.
Proof.
  induction cmds as [|argv cmds IH]; intros e st.
  - by eexists _, _, _.
  - cbn [Commands]. rewrite bind_run, Command_run.
    destruct (err e).
    + destruct (IH e st) as (e' & st' & ev & -> & Henv).
      by eexists _, _, _.
    + destruct (runCommand env (Dir e) argv (fs st)) as [[f' o] failure].
      destruct (IH {| Out := written (Out e) o; Dir := Dir e; err := failure |}
                  (mkState f' (environ st))) as (e' & st' & ev & -> & Henv).
      by eexists _, _, _.
Qed.

(** The first command of a sequence is always run. *)
Lemma Commands_first env argv rest e st :
  err e = None →
  ∃ failure more,
    eventsOf (Commands env e (argv :: rest) st)
    = EvExec (Dir e) argv failure :: more.
Proof.
  intros He. cbn [Commands]. rewrite bind_run, Command_run, He.
  destruct (runCommand env (Dir e) argv (fs st)) as [[f' o] failure].
  destruct (Commands_total env rest
              {| Out := written (Out e) o; Dir := Dir e; err := failure |}
              (mkState f' (environ st))) as (e' & st' & ev & -> & _).
  by eexists _, _.
Qed.

(** The run of [maybePostgresProcFile] when Postgres is not configured, the
    run directory has been prepared and the data directory does not exist:
    after the [os.Stat] comes the initialization. *)
Lemma maybePostgresProcFile_fresh env st e1 st1 ev1 :
  default "" (environ st !! "PGHOST") = "" →
  default "" (environ st !! "PGDATASOURCE") = "" →
  Commands env freshExecer runDirCommands st = (inr e1, st1, ev1) →
  err e1 = None →
  let path := dataPath (default "" (environ st !! "DATA_DIR")) in
  fs st1 !! path = None →
  maybePostgresProcFile env st
  = match initialize env path st1 with
    | (inl e, s, ev) => (inl e, s, ev1 ++ EvStat path :: ev)
    | (inr _, s, ev) =>
        (inr (procLine path),
         mkState (fs s)
           (SetDefaultEnv env "PGSSLMODE" "disable"
              (SetDefaultEnv env "PGDATABASE" "sourcegraph"
                 (SetDefaultEnv env "PGUSER" "postgres"
                    (SetDefaultEnv env "PGHOST" "127.0.0.1" (environ s))))),
         ev1 ++ EvStat path :: ev)
    end.
Proof.
  intros Hhost Hsrc Hdir He1 path Hpath.
  destruct (Commands_total env runDirCommands freshExecer st)
    as (e1' & st1' & ev1' & Hdir' & Henv).
  rewrite Hdir in Hdir'. injection Hdir' as <- <- <-.
  rewrite (after_nil (maybePostgresProcFile env st)).
  unfold maybePostgresProcFile.
  rewrite after_bind, Getenv_run, Hhost. cbn [app].
  rewrite after_bind, Getenv_run, Hsrc. cbn [app].
  cbn [bool_decide decide_rel negb orb].
  rewrite bool_decide_eq_true_2 by done. cbn [negb orb].
  rewrite after_bind, Hdir. unfold Error. rewrite He1. cbn [app].
  rewrite after_bind, Getenv_run, Henv. fold path.
  rewrite after_bind. unfold attempt. rewrite os_Stat_run.
  unfold FS.Stat. rewrite Hpath. rewrite after_bind. cbn [IsNotExist negb].
  rewrite app_nil_r.
  destruct (initialize env path st1) as [[[e|[]] s] ev].
  - by rewrite <- app_assoc.
  - unfold setDefaultEnv, mbind, M_bind, mret, M_ret, after. cbn.
    by rewrite app_nil_r, <- app_assoc.
Qed.

Lemma initialize_failed env path st1 e2 st2 ev2 er :
  Commands env freshExecer (initCommands path) st1 = (inr e2, st2, ev2) →
  err e2 = Some er →
  ∃ pre,
    initialize env path st1
    = (inl er, mkState (FS.RemoveAll (fs st2) path) (environ st2),
       pre ++ [EvRemoveAll path]).
Proof.
  intros Hinit He2. rewrite (after_nil (initialize env path st1)).
  unfold initialize. rewrite after_bind.
  destruct (verbose env); cbn [logPrint emit mret M_ret app].
  all: rewrite after_bind; cbn [logPrint emit app].
  all: rewrite after_bind, Hinit; unfold Error; rewrite He2; cbn [app].
  all: rewrite after_bind; cbn [logPrint emit app].
  all: rewrite after_bind, os_RemoveAll_run; cbn [after fail].
  all: eexists; rewrite app_nil_r, app_comm_cons;
       repeat rewrite app_assoc; reflexivity.
Qed.

(** Whatever comes of it, the initialization runs its first command. *)
Lemma initialize_first env path st :
  ∃ pre failure rest r s,
    initialize env path st
    = (r, s, pre ++ EvExec "" ["mkdir"; "-p"; path] failure :: rest).
Proof.
  destruct (Commands_total env (initCommands path) freshExecer
              st) as (e3 & st3 & ev3 & Hc3 & _).
  destruct (Commands_first env ["mkdir"; "-p"; path]
              (tail (initCommands path)) freshExecer st eq_refl)
    as (failure & more & Hfirst).
  unfold initCommands in Hfirst, Hc3. cbn [tail] in Hfirst.
  rewrite Hc3 in Hfirst. cbn [eventsOf snd freshExecer Dir] in Hfirst.
  subst ev3.
  rewrite (after_nil (initialize env path st)).
  unfold initialize, initCommands. rewrite after_bind.
  destruct (verbose env); cbn [logPrint emit mret M_ret app].
  all: rewrite after_bind; cbn [logPrint emit app].
  all: rewrite after_bind, Hc3; unfold Error; destruct (err e3); cbn [app].
  all: try (rewrite after_bind; cbn [logPrint emit app];
            rewrite after_bind, os_RemoveAll_run; cbn [fail]).
  all: cbn [after mret M_ret].
  - by eexists [_; _], failure, _, _, _.
  - by eexists [_; _], failure, _, _, _.
  - by eexists [_], failure, _, _, _.
  - by eexists [_], failure, _, _, _.
Qed.

(** C10. When Postgres is not configured, the run directory has been
    prepared and the data directory does not exist, a failure of any of the
    six initialization commands makes [maybePostgresProcFile] return that
    error after removing the data directory: its last act is the removal,
    nothing is left at or below the path, and the environment is as
    before.  A later run from that state which again finds no data
    directory starts the initialization anew with its first command. *)
Theorem failed_initialization_is_undone env st e1 st1 ev1 e2 st2 ev2 er :
  default "" (environ st !! "PGHOST") = "" →
  default "" (environ st !! "PGDATASOURCE") = "" →
  Commands env freshExecer runDirCommands st = (inr e1, st1, ev1) →
  err e1 = None →
  let path := dataPath (default "" (environ st !! "DATA_DIR")) in
  fs st1 !! path = None →
  Commands env freshExecer (initCommands path) st1 = (inr e2, st2, ev2) →
  err e2 = Some er →
  let run := maybePostgresProcFile env st in
  resultOf run = inl er
  ∧ fs (stateOf run) = FS.RemoveAll (fs st2) path
  ∧ (∀ k, FS.under path k → fs (stateOf run) !! k = None)
  ∧ FS.Stat (fs (stateOf run)) path = inl (ENOENT path)
  ∧ environ (stateOf run) = environ st
  ∧ last (eventsOf run) = Some (EvRemoveAll path)
  ∧ (∀ e1' st1' ev1',
        Commands env freshExecer runDirCommands (stateOf run)
        = (inr e1', st1', ev1') →
        err e1' = None →
        fs st1' !! path = None →
        ∃ pre failure rest,
          eventsOf (maybePostgresProcFile env (stateOf run))
          = pre ++ EvExec "" ["mkdir"; "-p"; path] failure :: rest).
Proof.
  intros Hhost Hsrc Hdir He1 path Hpath Hinit He2 run.
  destruct (Commands_total env runDirCommands freshExecer st)
    as (? & ? & ? & Hdir' & Henv1).
  rewrite Hdir in Hdir'. injection Hdir' as <- <- <-.
  destruct (Commands_total env (initCommands path) freshExecer st1)
    as (? & ? & ? & Hinit' & Henv2).
  rewrite Hinit in Hinit'. injection Hinit' as <- <- <-.
  destruct (initialize_failed env path st1 e2 st2 ev2 er Hinit He2)
    as [pre Hfail].
  assert (run = (inl er, mkState (FS.RemoveAll (fs st2) path) (environ st2),
                 ev1 ++ EvStat path :: pre ++ [EvRemoveAll path])) as Hrun.
  { subst run.
    rewrite (maybePostgresProcFile_fresh env st e1 st1 ev1 Hhost Hsrc Hdir
               He1 Hpath).
    fold path. by rewrite Hfail. }
  rewrite Hrun. cbn [resultOf stateOf eventsOf fst snd fs environ].
  split; [done|]. split; [done|].
  split; [intros k Hk; by apply RemoveAll_under|].
  split.
  { unfold FS.Stat. rewrite RemoveAll_under; [done|]. by left. }
  split; [congruence|].
  split.
  { rewrite app_comm_cons, app_assoc. apply last_snoc. }
  intros e1' st1' ev1' Hdir' He1' Hpath'.
  pose proof (maybePostgresProcFile_fresh env
                (mkState (FS.RemoveAll (fs st2) path) (environ st2))
                e1' st1' ev1') as Hagain.
  cbn [environ] in Hagain.
  assert (environ st2 = environ st) as Henv by congruence.
  rewrite Henv in Hagain, Hdir'. fold path in Hagain.
  rewrite Henv. rewrite (Hagain Hhost Hsrc Hdir' He1' Hpath').
  destruct (initialize_first env path st1')
    as (pre2 & failure & rest & r & s & Hinit2).
  rewrite Hinit2.
  exists (ev1' ++ EvStat path :: pre2), failure, rest.
  destruct r as [?|[]]; cbn [eventsOf snd].
  all: by rewrite <- app_assoc.
Qed.

Lemma failed_initialization_is_undone_witness :
  let st := Scenario.start Scenario.freshFS in
  let run := maybePostgresProcFile Scenario.worldInitdbFails st in
  resultOf run = inl (External "exit status 1")
  ∧ fs (stateOf run) !! "/data/postgresql" = None
  ∧ last (eventsOf run) = Some (EvRemoveAll "/data/postgresql").
Proof.
  intros st run.
  pose (c1 := Commands Scenario.worldInitdbFails freshExecer runDirCommands st).
  pose (c2 := Commands Scenario.worldInitdbFails freshExecer
                (initCommands "/data/postgresql") (stateOf c1)).
  destruct (failed_initialization_is_undone Scenario.worldInitdbFails st
              {| Out := Buffer ""; Dir := ""; err := None |}
              (stateOf c1) (eventsOf c1)
              {| Out := Buffer "initdb: error"; Dir := "";
                 err := Some (External "exit status 1") |}
              (stateOf c2) (eventsOf c2) (External "exit status 1"))
    as (H1 & _ & H3 & _ & _ & H6 & _).
  - reflexivity.
  - reflexivity.
  - vm_compute. reflexivity.
  - reflexivity.
  - vm_compute. reflexivity.
  - vm_compute. reflexivity.
  - reflexivity.
  - split; [exact H1|]. split; [|exact H6].
    apply H3. left. reflexivity.
Defined.

(* ===================================================================== *)
(** * Further properties of the code *)
(* ===================================================================== *)

(** ** Strings *)

#[local] Transparent ReadString SplitN String.append.

Lemma append_assoc s t u : (s +:+ t) +:+ u = s +:+ t +:+ u.
Proof.
  induction s as [|c s IH]; [done|].
  change (String c (((s +:+ t)) +:+ u) = String c (s +:+ t +:+ u)).
  by rewrite IH.
Qed.

Lemma contains_app c s t :
  contains c (s +:+ t) = contains c s || contains c t.
Proof.
  induction s as [|c' s IH]; [done|].
  change (String c' s +:+ t) with (String c' (s +:+ t)).
  cbn [contains]. destruct (Ascii.eqb c' c); [done|exact IH].
Qed.

Lemma cut_None sep s : contains sep s = false → cut sep s = None.
Proof.
  induction s as [|c s IH]; [done|]. cbn [contains cut].
  destruct (Ascii.eqb c sep); [done|]. intros H. by rewrite (IH H).
Qed.

Lemma cut_append sep a b :
  contains sep a = false →
  cut sep (a +:+ String sep EmptyString +:+ b) = Some (a, b).
Proof. intros H. exact (cut_intro sep a b H). Qed.

(** ** [containerID] *)

(** The id is what follows the second slash of the first line, trimmed:
    whatever slashes come later stay in it.  The state is not changed. *)
Theorem containerID_third_field st a b c rest :
  fs st !! "/proc/self/cgroup"
  = Some (File (a +:+ "/" +:+ b +:+ "/" +:+ c +:+ nl +:+ rest)) →
  contains "/"%char a = false →
  contains "/"%char b = false →
  contains (byte 10) (a +:+ "/" +:+ b +:+ "/" +:+ c) = false →
  containerID st = (inr (TrimSpace (c +:+ nl)), st, [EvOpen "/proc/self/cgroup"]).
Proof.
  intros Hfile Ha Hb Hnl.
  unfold containerID, mbind, M_bind, emit, getFS. cbn -[SplitN ReadString].
  rewrite Hfile.
  assert (ReadString (a +:+ "/" +:+ b +:+ "/" +:+ c +:+ nl +:+ rest) (byte 10)
          = Some (a +:+ "/" +:+ b +:+ "/" +:+ c +:+ nl)) as ->.
  { unfold ReadString.
    pose proof (cut_append (byte 10) (a +:+ "/" +:+ b +:+ "/" +:+ c) rest Hnl)
      as Hcut.
    replace (a +:+ "/" +:+ b +:+ "/" +:+ c +:+ nl +:+ rest)
      with ((a +:+ "/" +:+ b +:+ "/" +:+ c) +:+ String (byte 10) "" +:+ rest).
    - rewrite Hcut. f_equal. unfold nl.
      by rewrite !append_assoc.
    - unfold nl. by rewrite !append_assoc. }
  assert (SplitN (a +:+ "/" +:+ b +:+ "/" +:+ c +:+ nl) "/"%char 3
          = [a; b; c +:+ nl]) as ->.
  { change (SplitN ?s ?sep 3)
      with (match cut sep s with
            | Some (x, y) => x :: SplitN y sep 2
            | None => [s]
            end).
    rewrite (cut_append "/"%char a (b +:+ "/" +:+ c +:+ nl) Ha).
    change (SplitN ?s ?sep 2)
      with (match cut sep s with
            | Some (x, y) => [x; y]
            | None => [s]
            end).
    by rewrite (cut_append "/"%char b (c +:+ nl) Hb). }
  done.
Qed.

Lemma containerID_third_field_witness :
  containerID (Scenario.start Scenario2.kubeFS)
  = (inr "besteffort/pod42/abc123", Scenario.start Scenario2.kubeFS,
     [EvOpen "/proc/self/cgroup"]).
Proof.
  apply (containerID_third_field (Scenario.start Scenario2.kubeFS)
           "11:hugetlb:" "kubepods" "besteffort/pod42/abc123"
           ("10:cpu:/kubepods" +:+ nl)); reflexivity.
Defined.

(** [containerID] fails, without changing the state, when the cgroup file
    is missing, when it holds no newline at all (even if its one line is
    well formed), and when its first line has fewer than two slashes. *)
Theorem containerID_failures st :
  (fs st !! "/proc/self/cgroup" = None →
   containerID st
   = (inl (Wrap (ENOENT "/proc/self/cgroup")
             "failed to read /proc/self/cgroup to determine container id"),
      st, [EvOpen "/proc/self/cgroup"]))
  ∧ (∀ contents,
       fs st !! "/proc/self/cgroup" = Some (File contents) →
       contains (byte 10) contents = false →
       containerID st
       = (inl (Wrap EOF "failed to read first line of /proc/self/cgroup"),
          st, [EvOpen "/proc/self/cgroup"]))
  ∧ (∀ line rest,
       fs st !! "/proc/self/cgroup" = Some (File (line +:+ nl +:+ rest)) →
       contains (byte 10) line = false →
       contains "/"%char line = false
       ∨ (∃ a b, line = a +:+ "/" +:+ b
                 ∧ contains "/"%char a = false
                 ∧ contains "/"%char b = false) →
       containerID st
       = (inl (New "failed to parse /proc/self/cgroup"), st,
          [EvOpen "/proc/self/cgroup"])).
Proof.
  split; [|split].
  - intros Hnone.
    unfold containerID, mbind, M_bind, emit, getFS. cbn -[SplitN ReadString].
    by rewrite Hnone.
  - intros contents Hfile Hnl.
    unfold containerID, mbind, M_bind, emit, getFS. cbn -[SplitN ReadString].
    rewrite Hfile. unfold ReadString. by rewrite (cut_None _ _ Hnl).
  - intros line rest Hfile Hnl Hslashes.
    unfold containerID, mbind, M_bind, emit, getFS. cbn -[SplitN ReadString].
    rewrite Hfile. unfold ReadString, nl.
    rewrite (cut_append (byte 10) line rest Hnl).
    assert (contains "/"%char (String (byte 10) "") = false) as Hnlslash
      by reflexivity.
    change (SplitN ?s ?sep 3)
      with (match cut sep s with
            | Some (x, y) => x :: SplitN y sep 2
            | None => [s]
            end).
    destruct Hslashes as [Hno|(a & b & -> & Ha & Hb)].
    + rewrite cut_None; [done|]. by rewrite contains_app, Hno.
    + rewrite !append_assoc.
      rewrite (cut_append "/"%char a (b +:+ String (byte 10) "") Ha).
      change (SplitN ?s ?sep 2)
        with (match cut sep s with
              | Some (x, y) => [x; y]
              | None => [s]
              end).
      rewrite cut_None; [done|]. by rewrite contains_app, Hb.
Qed.

Lemma containerID_failures_witness :
  resultOf (containerID (Scenario.start (Scenario.bareFS "9.6")))
  = inl (Wrap (ENOENT "/proc/self/cgroup")
           "failed to read /proc/self/cgroup to determine container id")
  ∧ resultOf (containerID
                (Scenario.start
                   {[ "/proc/self/cgroup" := File "11:hugetlb:/docker/abc123" ]}))
    = inl (Wrap EOF "failed to read first line of /proc/self/cgroup")
  ∧ resultOf (containerID
                (Scenario.start
                   {[ "/proc/self/cgroup" := File ("0::/" +:+ nl +:+ "") ]}))
    = inl (New "failed to parse /proc/self/cgroup").
Proof.
  split; [|split].
  - rewrite (proj1 (containerID_failures _)); reflexivity.
  - rewrite (proj1 (proj2 (containerID_failures _))
               "11:hugetlb:/docker/abc123"); reflexivity.
  - rewrite (proj2 (proj2 (containerID_failures _)) "0::/" "").
    + reflexivity.
    + reflexivity.
    + reflexivity.
    + right. exists "0::", "". by repeat split.
Defined.

(** ** [hostMountPoint] *)



#[local] Opaque ReadString SplitN String.append.

(** ** [maybeUpgradePostgres]: the discovery *)

(** The events of the run up to the gate are those of the discovery, also
    when it fails. *)
Lemma upgradeLocals_discovery env path newVersion st :
  Forall (λ x, isDiscovery x = true)
    (eventsOf (upgradeLocals env path newVersion st)).
Proof.
  rewrite (after_nil (upgradeLocals env path newVersion st)).
  unfold upgradeLocals.
  rewrite after_bind, wrap_run, os_ReadFile_run.
  destruct (FS.ReadFile (fs st) (markerFileOf path)) as [e|bs];
    [repeat constructor|].
  rewrite after_bind, wrap_run.
  destruct (containerID_run st) as (r & ->). destruct r as [e|id];
    [repeat constructor|].
  rewrite after_bind. cbn [emit].
  rewrite after_bind, wrap_run.
  destruct (NewClientWithOpts env) as [e|c]; cbn [ofResult fail mret M_ret];
    [repeat constructor|].
  rewrite after_bind, wrap_run.
  destruct (hostMountPoint_run c id (Filepath.Dir path) st) as (r & ->).
  destruct r as [e|hdd]; [repeat constructor|].
  cbn zeta.
  rewrite after_bind, wrap_run, os_MkdirAll_run.
  destruct (FS.MkdirAll (fs st) _) as [e|f']; [repeat constructor|].
  rewrite after_bind, readStatus_run.
  destruct (statusOf _) as [e|s]; repeat constructor.
Qed.

(** Each step of the discovery that fails ends the run with its own
    message around the error, in the state the run started in and before
    the next step is tried: an unreadable version marker before the
    container id is looked up, an unknown container id before Docker is
    contacted, and so on. *)
Theorem discovery_failures_abort env path newVersion st :
  let run := maybeUpgradePostgres env path newVersion st in
  (∀ e, FS.ReadFile (fs st) (markerFileOf path) = inl e →
        run = (inl (Wrap e "failed to detect version of existing Postgres data"),
               st, [EvReadFile (markerFileOf path)]))
  ∧ (∀ bs e,
        FS.ReadFile (fs st) (markerFileOf path) = inr bs →
        resultOf (containerID st) = inl e →
        run = (inl (Wrap e "failed to determine running container id"), st,
               [EvReadFile (markerFileOf path); EvOpen "/proc/self/cgroup"]))
  ∧ (∀ bs id e,
        FS.ReadFile (fs st) (markerFileOf path) = inr bs →
        resultOf (containerID st) = inr id →
        NewClientWithOpts env = inl e →
        run = (inl (Wrap e "failed to initialise docker client"), st,
               [EvReadFile (markerFileOf path); EvOpen "/proc/self/cgroup";
                EvNewClient]))
  ∧ (∀ bs id c e,
        FS.ReadFile (fs st) (markerFileOf path) = inr bs →
        resultOf (containerID st) = inr id →
        NewClientWithOpts env = inr c →
        resultOf (hostMountPoint c id (Filepath.Dir path) st) = inl e →
        run = (inl (Wrap e "failed to determine host mount point"), st,
               [EvReadFile (markerFileOf path); EvOpen "/proc/self/cgroup";
                EvNewClient; EvContainerInspect id]))
  ∧ (∀ bs id c hostDataDir e,
        FS.ReadFile (fs st) (markerFileOf path) = inr bs →
        resultOf (containerID st) = inr id →
        NewClientWithOpts env = inr c →
        resultOf (hostMountPoint c id (Filepath.Dir path) st) = inr hostDataDir →
        FS.MkdirAll (fs st) (upgradeDirOf path (TrimSpace bs) newVersion) = inl e →
        run = (inl (Wrap e "failed to create upgrade dir"), st,
               [EvReadFile (markerFileOf path); EvOpen "/proc/self/cgroup";
                EvNewClient; EvContainerInspect id;
                EvMkdirAll (upgradeDirOf path (TrimSpace bs) newVersion)])).
Proof.
  intros run. subst run. rewrite maybeUpgradePostgres_run.
  rewrite (after_nil (upgradeLocals env path newVersion st)).
  unfold upgradeLocals.
  rewrite after_bind, wrap_run, os_ReadFile_run.
  destruct (containerID_run st) as (rid & Hid).
  split; [|split; [|split; [|split]]].
  - intros e ->. done.
  - intros bs e -> Hres. rewrite after_bind, wrap_run, Hid.
    rewrite Hid in Hres. cbn in Hres. by subst rid.
  - intros bs id e -> Hres Hcli. rewrite after_bind, wrap_run, Hid.
    rewrite Hid in Hres. cbn in Hres. subst rid.
    rewrite after_bind. cbn [emit]. rewrite after_bind, wrap_run, Hcli. done.
  - intros bs id c e -> Hres Hcli Hhost. rewrite after_bind, wrap_run, Hid.
    rewrite Hid in Hres. cbn in Hres. subst rid.
    rewrite after_bind. cbn [emit]. rewrite after_bind, wrap_run, Hcli.
    cbn [ofResult mret M_ret].
    destruct (hostMountPoint_run c id (Filepath.Dir path) st) as (r & Hr).
    rewrite after_bind, wrap_run, Hr. rewrite Hr in Hhost. cbn in Hhost.
    by subst r.
  - intros bs id c hdd e -> Hres Hcli Hhost Hmk.
    rewrite after_bind, wrap_run, Hid.
    rewrite Hid in Hres. cbn in Hres. subst rid.
    rewrite after_bind. cbn [emit]. rewrite after_bind, wrap_run, Hcli.
    cbn [ofResult mret M_ret].
    destruct (hostMountPoint_run c id (Filepath.Dir path) st) as (r & Hr).
    rewrite after_bind, wrap_run, Hr. rewrite Hr in Hhost. cbn in Hhost.
    subst r. cbn zeta.
    rewrite after_bind, wrap_run, os_MkdirAll_run, Hmk. done.
Qed.

Lemma discovery_failures_abort_witness :
  let st := Scenario.start (Scenario.bareFS "9.6") in
  maybeUpgradePostgres (Scenario.world (OnStatusCh 0)) Scenario.path "11" st
  = (inl (Wrap (Wrap (ENOENT "/proc/self/cgroup")
                  "failed to read /proc/self/cgroup to determine container id")
            "failed to determine running container id"), st,
     [EvReadFile (markerFileOf Scenario.path); EvOpen "/proc/self/cgroup"]).
Proof.
  intros st.
  apply (proj1 (proj2 (discovery_failures_abort
                         (Scenario.world (OnStatusCh 0)) Scenario.path "11" st))
           ("9.6" +:+ nl)).
  - vm_compute. reflexivity.
  - vm_compute. reflexivity.
Defined.

(** ** [maybeUpgradePostgres]: over all runs *)

(** The walk of [traverse_run], keeping for the runs that fail before the
    gate what is known of their events and state. *)
Ltac traverse_all env path newVersion st :=
  pose proof (upgradeLocals_discovery env path newVersion st) as Hdisc;
  rewrite maybeUpgradePostgres_run;
  destruct (upgradeLocals_run env path newVersion st)
    as [(l & st1 & id & bs & Heq & Hbs & Hold & Hcli & Hmk & Henv & Hstat)
       |(e0 & msg & st1 & ev & Heq & Hev & Henv & Hfs)];
  rewrite Heq; rewrite Heq in Hdisc; cbn [eventsOf snd] in Hdisc;
  [ clear Hdisc; unfold gateEvents;
    destruct (decide (status l = "started")) as [Hst|Hst];
    [ rewrite recoveryGate_run; cbn [after app]
    | destruct (decide (oldVersion l = newVersion)) as [Hsame|Hdiff];
      [ cbn [after app] | traverse_upgrade env ] ]
  | ].

Lemma discovery_not_action x : isDiscovery x = true → isAction x = false.
Proof. by destruct x. Qed.




Lemma failed_upgrade_ledger env path newVersion st e p :
  let run := maybeUpgradePostgres env path newVersion st in
  resultOf run = inl e →
  EvWriteFile p "started" None ∈ eventsOf run →
  ∃ l st1 ev0,
    upgradeLocals env path newVersion st = (inr l, st1, ev0)
    ∧ p = statusFileOf path (oldVersion l) newVersion
    ∧ (helperKeeps (cli l) p →
       commandsKeep env (upgradeDirOf path (oldVersion l) newVersion)
         (finalizeCommands path (oldVersion l) newVersion) p →
       FS.ReadFile (fs (stateOf run)) p = inr "started").
Proof.
  intros run. subst run. traverse_all env path newVersion st.
  all: cbn [resultOf stateOf eventsOf fst snd fs]; intros Hres Hin.
  all: try discriminate Hres.
  all: try (exfalso; rewrite Forall_forall in Hdisc;
            by specialize (Hdisc _ Hin)).
  all: split_elem Hin.
  all: eexists l, st1, _; (split; [reflexivity|]); (split; [reflexivity|]).
  all: intros Hhelper Hcmds; unfold FS.ReadFile.
  all: repeat match goal with
              | Hq : runCommand _ ?d ?a ?fa = (?fb, _, _) |- _ =>
                  let Hk := fresh "Hk" in
                  assert (fb !! statusFileOf path (oldVersion l) newVersion
                          = fa !! statusFileOf path (oldVersion l) newVersion)
                    as Hk
                    by (rewrite <- (Hcmds a fa);
                        [by rewrite Hq|unfold finalizeCommands; find_elem]);
                  try rewrite Hk; clear Hq
              end.
  all: try rewrite Hhelper.
  all: match goal with
       | H : FS.WriteFile _ _ "started" = inr _ |- _ =>
           apply WriteFile_inv in H; rewrite H
       end.
  all: by rewrite lookup_insert_eq.
Qed.

(** When a run fails after it has written [started], the status file of
    the upgrade still holds [started] when the run ends, provided the
    helper container and the four commands of the finalization leave that
    file alone. *)
Theorem failed_upgrade_leaves_started env path newVersion st l st1 ev0 e :
  let run := maybeUpgradePostgres env path newVersion st in
  let dir := upgradeDirOf path (oldVersion l) newVersion in
  let statusFile := statusFileOf path (oldVersion l) newVersion in
  upgradeLocals env path newVersion st = (inr l, st1, ev0) →
  resultOf run = inl e →
  EvWriteFile statusFile "started" None ∈ eventsOf run →
  helperKeeps (cli l) statusFile →
  commandsKeep env dir
    [ ["mv"; path; path +:+ "-" +:+ oldVersion l];
      ["mv"; path +:+ "-" +:+ newVersion; path];
      ["chown"; "-R"; "postgres"; path];
      ["su-exec"; "postgres"; "/postgres-optimize.sh"; path] ]
    statusFile →
  FS.ReadFile (fs (stateOf run)) statusFile = inr "started".
Proof.
  intros run dir statusFile Hloc Hres Hin Hhelper Hcmds.
  destruct (failed_upgrade_ledger env path newVersion st e statusFile Hres Hin)
    as (l' & st1' & ev0' & Hloc' & _ & Hkept).
  rewrite Hloc in Hloc'. injection Hloc' as <- <- <-.
  by apply Hkept.
Qed.

(** Renaming leaves alone what is neither moved nor overwritten. *)
Lemma list_to_map_rekey (g : string → string) (kns : list (string * node)) p :
  (∀ k, g k = p ↔ k = p) →
  (list_to_map ((λ kn : string * node, (g kn.1, kn.2)) <$> kns)
     : gmap string node) !! p
  = (list_to_map kns : gmap string node) !! p.
Proof.
  intros Hg. induction kns as [|[k n] kns IH]; [done|].
  cbn [fmap list_fmap list_to_map foldr fst snd].
  destruct (decide (k = p)) as [->|Hne].
  - rewrite (proj2 (Hg p) eq_refl). by rewrite !lookup_insert_eq.
  - rewrite !lookup_insert_ne; [exact IH|done|].
    intros Hk. by apply Hne, Hg.
Qed.

Lemma rename_keeps a b p (f : gmap string node) :
  ¬ FS.under a p →
  (∀ s, b +:+ s ≠ p) →
  Scenario.rename a b f !! p = f !! p.
Proof.
  intros Hp Hb. unfold Scenario.rename.
  transitivity ((list_to_map (map_to_list f) : gmap string node) !! p);
    [|by rewrite list_to_map_to_list].
  pose (g := λ k : string,
          if decide (FS.under a k)
          then b +:+ Scenario.dropBytes (String.length a) k else k).
  apply (list_to_map_rekey g). intros k. unfold g.
  destruct (decide (FS.under a k)) as [Hk|Hk]; [|done].
  split; [intros H; by apply Hb in H|intros ->; done].
Qed.

Lemma failed_upgrade_leaves_started_witness :
  let env := Scenario2.worldOptimizeFails in
  let st := Scenario.start (Scenario.dataFS "9.6") in
  let run := maybeUpgradePostgres env Scenario.path "11" st in
  resultOf run
  = inl (Wrap (External "exit status 2")
           "postgres upgrade failed after running pg_upgrade")
  ∧ FS.ReadFile (fs (stateOf run)) (statusFileOf Scenario.path "9.6" "11")
    = inr "started".
Proof.
  intros env st run.
  assert (resultOf run
          = inl (Wrap (External "exit status 2")
                   "postgres upgrade failed after running pg_upgrade"))
    as Hres by (vm_compute; reflexivity).
  split; [exact Hres|].
  apply (failed_upgrade_leaves_started env Scenario.path "11" st
           {| cli := Scenario.daemon (OnStatusCh 0); oldVersion := "9.6";
              hostDataDir := "/host/data"; status := "" |}
           (mkState (<["/data/.9.6-to-11-upgrade" := Directory]> (fs st))
              (environ st))
           (gateEvents Scenario.path "11" "abc123" "9.6")
           (Wrap (External "exit status 2")
              "postgres upgrade failed after running pg_upgrade")).
  - vm_compute. reflexivity.
  - exact Hres.
  - apply (list_elem_of_lookup_2 _ 7). vm_compute. reflexivity.
  - intros id f. apply lookup_insert_ne. by vm_compute.
  - intros argv f Hin. cbn [oldVersion] in Hin.
    apply elem_of_cons in Hin as [->|Hin];
      [|apply elem_of_cons in Hin as [->|Hin];
        [|apply elem_of_cons in Hin as [->|Hin];
          [|apply list_elem_of_singleton in Hin as ->]]].
    + apply rename_keeps.
      * intros [H|H]; vm_compute in H; discriminate H.
      * intros s H. vm_compute in H. discriminate H.
    + apply rename_keeps.
      * intros [H|H]; vm_compute in H; discriminate H.
      * intros s H. vm_compute in H. discriminate H.
    + reflexivity.
    + reflexivity.
Defined.

(** Unless [verbose] is set, a run writes nothing to standard output. *)
Theorem quiet_run_writes_no_stdout env path newVersion st :
  verbose env = false →
  Forall (λ x, isStdout x = false)
    (eventsOf (maybeUpgradePostgres env path newVersion st)).
Proof.
  traverse_all env path newVersion st.
  all: cbn [eventsOf snd]; intros Hquiet; try discriminate Hquiet.
  all: try (repeat constructor; fail).
  apply (Forall_impl _ _ _ Hdisc). intros x Hx. by destruct x.
Qed.

Lemma quiet_run_writes_no_stdout_witness :
  Forall (λ x, isStdout x = false)
    (eventsOf (maybeUpgradePostgres (Scenario.world (OnStatusCh 0))
                 Scenario.path "11" (Scenario.start (Scenario.dataFS "9.6")))).
Proof.
  apply (quiet_run_writes_no_stdout (Scenario.world (OnStatusCh 0))).
  reflexivity.
Defined.

Lemma maybeUpgradePostgres_removes_nothing env path newVersion st :
  Forall (λ x, isRemove x = false)
    (eventsOf (maybeUpgradePostgres env path newVersion st)).
Proof.
  traverse_all env path newVersion st.
  all: cbn [eventsOf snd].
  all: try (repeat constructor; fail).
  apply (Forall_impl _ _ _ Hdisc). intros x Hx. by destruct x.
Qed.

(** No run of [maybeUpgradePostgres] changes the process environment or
    removes anything with [os.RemoveAll]. *)
Theorem upgrade_keeps_environment env path newVersion st :
  let run := maybeUpgradePostgres env path newVersion st in
  environ (stateOf run) = environ st
  ∧ Forall (λ x, isRemove x = false) (eventsOf run).
Proof.
  intros run. subst run.
  split; [|apply maybeUpgradePostgres_removes_nothing].
  traverse_all env path newVersion st.
  all: done.
Qed.

Lemma persisted_started_never_acts_witness :
  let st := Scenario.start (Scenario.ledgerFS "9.6" "11" ("started" +:+ nl)) in
  let run := maybeUpgradePostgres (Scenario.world (OnStatusCh 0))
               Scenario.path "11" st in
  Forall (λ e, isAction e = false) (eventsOf run)
  ∧ (resultOf run = inl interrupted
     ∨ ∃ e msg, resultOf run = inl (Wrap e msg)).
Proof.
  intros st run.
  apply (persisted_started_never_acts (Scenario.world (OnStatusCh 0))
           Scenario.path "11" st ("9.6" +:+ nl) ("started" +:+ nl)).
  - vm_compute. reflexivity.
  - vm_compute. reflexivity.
  - vm_compute. reflexivity.
Defined.

(** ** [maybePostgresProcFile] *)

(** With a buffer for its output, a sequence of commands causes nothing but
    command events, and it leaves the environment alone. *)
Lemma Commands_quiet env cmds : ∀ e st b,
  Out e = Buffer b →
  ∃ e' st' ev b',
    Commands env e cmds st = (inr e', st', ev)
    ∧ Out e' = Buffer b'
    ∧ environ st' = environ st
    ∧ Forall (λ x, isExec x = true) ev.
Proof.
  induction cmds as [|argv cmds IH]; intros e st b Hout.
  - by eexists e, st, [], b.
  - cbn [Commands]. rewrite bind_run, Command_run.
    destruct (err e).
    + destruct (IH e st b Hout) as (e' & st' & ev & b' & -> & ? & ? & ?).
      by eexists _, _, _, _.
    + destruct (runCommand env (Dir e) argv (fs st)) as [[f' o] failure].
      rewrite Hout. cbn [written writeEvents].
      destruct (IH {| Out := Buffer (b +:+ o); Dir := Dir e; err := failure |}
                  (mkState f' (environ st)) (b +:+ o) eq_refl)
        as (e' & st' & ev & b' & -> & ? & ? & ?).
      eexists _, _, _, _. split; [reflexivity|]. split; [done|].
      split; [done|]. by constructor.
Qed.

(** The run of [maybePostgresProcFile], branch by branch. *)
Lemma maybePostgresProcFile_run env st :
  maybePostgresProcFile env st
  = if configured st then (inr "", st, [])
    else
      match Commands env freshExecer runDirCommands st with
      | (inl e, st1, ev1) => (inl e, st1, ev1)
      | (inr e1, st1, ev1) =>
          match err e1 with
          | Some er =>
              (inl er, st1,
               ev1 ++ [EvLog ("Setting up postgres failed:" +:+ nl
                              +:+ bufferString (Out e1))])
          | None =>
              let path := dataPath (default "" (environ st1 !! "DATA_DIR")) in
              after (ev1 ++ [EvStat path])
                (finish env path
                   match fs st1 !! path with
                   | None => initialize env path st1
                   | Some _ => adjustAndUpgrade env path st1
                   end)
          end
      end.
Proof.
  rewrite (after_nil (maybePostgresProcFile env st)).
  unfold maybePostgresProcFile, configured.
  rewrite after_bind, Getenv_run. cbn [app].
  rewrite after_bind, Getenv_run. cbn [app].
  destruct (negb _ || negb _); [done|].
  rewrite after_bind.
  destruct (Commands env freshExecer runDirCommands st)
    as [[[e|e1] st1] ev1]; [done|].
  unfold Error. destruct (err e1) as [er|].
  { rewrite after_bind. cbn [logPrint emit fail after app].
    by rewrite app_nil_r. }
  cbn [app]. rewrite after_bind, Getenv_run. cbn zeta.
  rewrite after_bind. unfold attempt. rewrite os_Stat_run.
  rewrite after_bind. rewrite !app_nil_r. unfold FS.Stat.
  set (path := dataPath (default "" (environ st1 !! "DATA_DIR"))).
  assert (∀ (x : (error + unit) * State * list event) evs,
             match x with
             | (inl e, s1, ev) => (inl e, s1, evs ++ ev)
             | (inr a, s1, ev) =>
                 after (evs ++ ev)
                   ((setDefaultEnv env "PGHOST" "127.0.0.1"
                     ≫= λ _ : (),
                       setDefaultEnv env "PGUSER" "postgres"
                       ≫= λ _ : (),
                         setDefaultEnv env "PGDATABASE" "sourcegraph"
                         ≫= λ _ : (),
                           setDefaultEnv env "PGSSLMODE" "disable"
                           ≫= λ _ : (), mret (procLine path)) s1)
             end = after evs (finish env path x)) as Hfinish.
  { intros [[[e|[]] s] ev] evs; [done|].
    unfold setDefaultEnv, mbind, M_bind, mret, M_ret, after, finish,
      withDefaults. cbn. by rewrite !app_nil_r. }
  destruct (fs st1 !! path) as [[data|]|]; cbn [IsNotExist negb];
    apply Hfinish.
Qed.

Lemma adjustAndUpgrade_run env path st :
  adjustAndUpgrade env path st
  = match runCommand env "" ["chown"; "-R"; "postgres"; path] (fs st) with
    | (f', o, Some er) =>
        (inl er, mkState f' (environ st),
         [EvExec "" ["chown"; "-R"; "postgres"; path] (Some er);
          EvLog ("Adjusting fs owners for postgres failed:" +:+ nl
                 +:+ ("" +:+ o))])
    | (f', o, None) =>
        after [EvExec "" ["chown"; "-R"; "postgres"; path] None]
          (maybeUpgradePostgres env path
             (wantedVersion (default "" (environ st !! "PG_VERSION")))
             (mkState f' (environ st)))
    end.
Proof.
  rewrite (after_nil (adjustAndUpgrade env path st)).
  unfold adjustAndUpgrade. rewrite after_bind, Command_run.
  cbn [freshExecer err Dir Out written writeEvents].
  destruct (runCommand env "" ["chown"; "-R"; "postgres"; path] (fs st))
    as [[f' o] [er|]]; cbn [Error err Out bufferString app].
  - rewrite after_bind. cbn [logPrint emit fail after app]. done.
  - rewrite after_bind, Getenv_run. cbn [app environ]. unfold wantedVersion.
    by destruct (maybeUpgradePostgres _ _ _ _) as [[r s] ev].
Qed.

Lemma initialize_run env path st :
  initialize env path st
  = match Commands env freshExecer (initCommands path) st with
    | (inl e, s, ev) => (inl e, s, initPrelude env path ++ ev)
    | (inr e2, st2, ev2) =>
        match err e2 with
        | Some er =>
            (inl er, mkState (FS.RemoveAll (fs st2) path) (environ st2),
             initPrelude env path
             ++ ev2 ++ [EvLog ("Setting up postgres failed:" +:+ nl
                               +:+ bufferString (Out e2));
                        EvRemoveAll path])
        | None => (inr (), st2, initPrelude env path ++ ev2)
        end
    end.
Proof.
  rewrite (after_nil (initialize env path st)).
  unfold initialize, initPrelude, initNotice. rewrite after_bind.
  destruct (verbose env); cbn [logPrint emit mret M_ret app].
  all: rewrite after_bind; cbn [logPrint emit app].
  all: rewrite after_bind.
  all: destruct (Commands env freshExecer (initCommands path) st)
         as [[[e|e2] st2] ev2]; [done|].
  all: unfold Error; destruct (err e2) as [er|]; cbn [after mret M_ret].
  all: try (by rewrite app_nil_r).
  all: rewrite after_bind; cbn [logPrint emit];
       rewrite after_bind, os_RemoveAll_run; cbn [after fail].
  all: by rewrite app_nil_r, <- !app_assoc.
Qed.

(** When Postgres is configured from outside ([PGHOST] or [PGDATASOURCE]
    is set), [maybePostgresProcFile] returns no command line and does
    nothing at all; and when preparing the run directory fails, it returns
    that failure after logging the commands' output, without looking at
    the data directory and with the environment as it was. *)
Theorem procfile_early_exits env st :
  (configured st = true → maybePostgresProcFile env st = (inr "", st, []))
  ∧ (∀ e1 st1 ev1 er,
       configured st = false →
       Commands env freshExecer runDirCommands st = (inr e1, st1, ev1) →
       err e1 = Some er →
       maybePostgresProcFile env st
       = (inl er, st1,
          ev1 ++ [EvLog ("Setting up postgres failed:" +:+ nl
                         +:+ bufferString (Out e1))])
       ∧ Forall (λ x, isExec x = true) ev1
       ∧ environ st1 = environ st).
Proof.
  split.
  - intros Hc. by rewrite maybePostgresProcFile_run, Hc.
  - intros e1 st1 ev1 er Hc Hdir He1.
    rewrite maybePostgresProcFile_run, Hc, Hdir, He1. split; [done|].
    destruct (Commands_quiet env runDirCommands freshExecer st "" eq_refl)
      as (e' & st' & ev & b' & Heq & _ & Henv & Hev).
    rewrite Hdir in Heq. by injection Heq as <- <- <-.
Qed.

Lemma procfile_early_exits_witness :
  let st := mkState Scenario.freshFS {[ "PGHOST" := "db.example.org" ]} in
  maybePostgresProcFile Scenario.worldInitdbFails st = (inr "", st, []).
Proof.
  intros st.
  apply (proj1 (procfile_early_exits Scenario.worldInitdbFails st)).
  reflexivity.
Defined.





(** [maybePostgresProcFile] removes nothing but a data directory that it
    did not find: whenever a run calls [os.RemoveAll], the run directory
    had been prepared, the path removed is the data directory, and nothing
    was there when the run looked.  A data directory that exists is never
    removed. *)
Theorem only_absent_data_directory_removed env st p :
  EvRemoveAll p ∈ eventsOf (maybePostgresProcFile env st) →
  ∃ e1 st1 ev1,
    Commands env freshExecer runDirCommands st = (inr e1, st1, ev1)
    ∧ p = dataPath (default "" (environ st !! "DATA_DIR"))
    ∧ fs st1 !! p = None.
Proof.
  rewrite maybePostgresProcFile_run.
  destruct (configured st); [by intros ?%elem_of_nil|].
  destruct (Commands_quiet env runDirCommands freshExecer st "" eq_refl)
    as (e1 & st1 & ev1 & b1 & -> & _ & Henv1 & Hev1).
  assert (∀ q, EvRemoveAll q ∉ ev1) as Hno1.
  { intros q Hq. rewrite Forall_forall in Hev1. by specialize (Hev1 _ Hq). }
  destruct (err e1) as [er|].
  { cbn [eventsOf snd]. intros [Hin|Hin]%elem_of_app; [by apply Hno1 in Hin|].
    apply list_elem_of_singleton in Hin. discriminate Hin. }
  cbn zeta. rewrite Henv1.
  set (path := dataPath (default "" (environ st !! "DATA_DIR"))).
  destruct (fs st1 !! path) as [n|] eqn:Hpath.
  - (* the directory exists: nothing is removed *)
    rewrite adjustAndUpgrade_run.
    destruct (runCommand env "" ["chown"; "-R"; "postgres"; path] (fs st1))
      as [[f2 o] [er|]].
    + cbn [finish after eventsOf snd].
      intros [Hin|Hin]%elem_of_app; [|].
      * apply elem_of_app in Hin as [Hin|Hin]; [by apply Hno1 in Hin|].
        apply list_elem_of_singleton in Hin. discriminate Hin.
      * apply elem_of_cons in Hin as [Hin|Hin]; [discriminate Hin|].
        apply list_elem_of_singleton in Hin. discriminate Hin.
    + pose proof (maybeUpgradePostgres_removes_nothing env path
                    (wantedVersion (default "" (environ st1 !! "PG_VERSION")))
                    (mkState f2 (environ st1))) as Hup.
      destruct (maybeUpgradePostgres _ _ _ _) as [[[e|[]] s] ev];
        cbn [finish after eventsOf snd] in *.
      all: intros [Hin|Hin]%elem_of_app.
      all: try (apply elem_of_app in Hin as [Hin|Hin];
                [by apply Hno1 in Hin|];
                apply list_elem_of_singleton in Hin; discriminate Hin).
      all: apply elem_of_cons in Hin as [Hin|Hin]; [discriminate Hin|].
      all: rewrite Forall_forall in Hup; specialize (Hup _ Hin);
           discriminate Hup.
  - (* the directory does not exist *)
    intros Hin. exists e1, st1, ev1. split; [done|].
    enough (p = path) as -> by done.
    rewrite initialize_run in Hin.
    destruct (Commands_quiet env (initCommands path) freshExecer st1 ""
                eq_refl) as (e2 & st2 & ev2 & b2 & Heq & _ & _ & Hev2).
    rewrite Heq in Hin.
    assert (∀ q, EvRemoveAll q ∉ initPrelude env path ++ ev2) as Hno2.
    { intros q [Hq|Hq]%elem_of_app.
      - unfold initPrelude in Hq. destruct (verbose env); cbn in Hq.
        + apply elem_of_cons in Hq as [Hq|Hq]; [discriminate Hq|].
          apply list_elem_of_singleton in Hq. discriminate Hq.
        + apply list_elem_of_singleton in Hq. discriminate Hq.
      - rewrite Forall_forall in Hev2. by specialize (Hev2 _ Hq). }
    destruct (err e2) as [er|]; cbn [finish after eventsOf snd] in Hin.
    + apply elem_of_app in Hin as [Hin|Hin].
      { apply elem_of_app in Hin as [Hin|Hin]; [by apply Hno1 in Hin|].
        apply list_elem_of_singleton in Hin. discriminate Hin. }
      rewrite app_assoc in Hin.
      apply elem_of_app in Hin as [Hin|Hin]; [by apply Hno2 in Hin|].
      apply elem_of_cons in Hin as [Hin|Hin]; [discriminate Hin|].
      apply list_elem_of_singleton in Hin. by injection Hin.
    + apply elem_of_app in Hin as [Hin|Hin]; [|by apply Hno2 in Hin].
      apply elem_of_app in Hin as [Hin|Hin]; [by apply Hno1 in Hin|].
      apply list_elem_of_singleton in Hin. discriminate Hin.
Qed.

Lemma only_absent_data_directory_removed_witness :
  let st := Scenario.start Scenario.freshFS in
  ∃ e1 st1 ev1,
    Commands Scenario.worldInitdbFails freshExecer runDirCommands st
    = (inr e1, st1, ev1)
    ∧ "/data/postgresql" = dataPath (default "" (environ st !! "DATA_DIR"))
    ∧ fs st1 !! "/data/postgresql" = None.
Proof.
  intros st.
  apply (only_absent_data_directory_removed Scenario.worldInitdbFails st).
  apply (list_elem_of_lookup_2 _ 8). vm_compute. reflexivity.
Defined.
